(** * plugin-icp-nns: the proposal query provider

    A shallow embedding of the governance provider of the ICP NNS plugin
    ([fetchProposals], [fetchProposalInfo], [governanceProvider.get]) and of
    the two enum registries ([Topic] in topic.ts, [ProposalStatus] in
    status.ts), with the properties of the query pipeline stated over it.

    JavaScript data is modelled as follows.
    - A string is the list of its UTF-16 code units.
    - A number is [NaN], [Infinity] or an integer; the integers the program
      handles come out of [parseInt], which rounds to binary64.
    - A bigint is an integer.
    - An object used as a table is the list of its own properties in creation
      order; [Object_entries] lists them in the language's property order.
    - A rejected promise or a thrown exception is the [Err] branch of
      [Result]. *)

From Stdlib Require Import ZArith NArith List Bool Lia String Ascii.
From Stdlib Require Import Decimal DecimalPos DecimalN DecimalZ.
Import ListNotations.
Open Scope Z_scope.

(** ** Strings *)

Definition char := N.
Definition jsstring := list char.

(** A literal of the source, as code units. *)
Definition str (s : string) : jsstring :=
  map N_of_ascii (list_ascii_of_string s).

Definition jsstring_eqb (a b : jsstring) : bool :=
  if list_eq_dec N.eq_dec a b then true else false.

(** WhiteSpace and LineTerminator code units: the class [\s] of a regular
    expression, and what [parseInt] skips at the start of its argument. *)
Definition is_space (c : char) : bool :=
  let z := Z.of_N c in
  (z =? 9) || (z =? 10) || (z =? 11) || (z =? 12) || (z =? 13) || (z =? 32)
  || (z =? 160) || (z =? 5760) || ((8192 <=? z) && (z <=? 8202))
  || (z =? 8232) || (z =? 8233) || (z =? 8239) || (z =? 8287)
  || (z =? 12288) || (z =? 65279).

(** The class [\d]: the ten ASCII digits. *)
Definition is_digit (c : char) : bool :=
  let z := Z.of_N c in (48 <=? z) && (z <=? 57).

(** ** Numbers *)

Inductive number :=
| NaN
| Infinity
| Num (z : Z).

(** Strict equality [===] on numbers; [NaN] equals nothing. *)
Definition num_eqb (a b : number) : bool :=
  match a, b with
  | Num x, Num y => x =? y
  | Infinity, Infinity => true
  | _, _ => false
  end.

Definition isNaN (n : number) : bool :=
  match n with NaN => true | _ => false end.

(** The number value of a mathematical integer: round to nearest binary64,
    ties to even; magnitudes that round to 2^1024 give [Infinity]. *)
Definition toNumber (z : Z) : number :=
  let a := Z.abs z in
  if a <? 2 ^ 53 then Num z
  else
    let sh := Z.log2 a - 52 in
    let q := Z.shiftr a sh in
    let r := a - Z.shiftl q sh in
    let half := Z.shiftl 1 (sh - 1) in
    let q' := if (half <? r) || ((r =? half) && Z.odd q) then q + 1 else q in
    let m := Z.shiftl q' sh in
    if 2 ^ 1024 <=? m then Infinity else Num (Z.sgn z * m).

(** ToInt32, the conversion an [Int32Array] applies to what is stored in it. *)
Definition ToInt32 (n : number) : Z :=
  match n with
  | Num z => (z + 2 ^ 31) mod 2 ^ 32 - 2 ^ 31
  | _ => 0
  end.

(** *** parseInt *)

(** The value of a code unit as a digit of the given radix. *)
Definition digit_value (radix : Z) (c : char) : option Z :=
  let z := Z.of_N c in
  let v := if (48 <=? z) && (z <=? 57) then z - 48
           else if (97 <=? z) && (z <=? 122) then z - 97 + 10
           else if (65 <=? z) && (z <=? 90) then z - 65 + 10
           else 36 in
  if v <? radix then Some v else None.

Fixpoint skip_spaces (s : jsstring) : jsstring :=
  match s with
  | c :: s' => if is_space c then skip_spaces s' else s
  | [] => []
  end.

(** The longest prefix of radix digits, read left to right; [seen] records
    whether at least one digit was read. *)
Fixpoint read_digits (radix : Z) (s : jsstring) (acc : Z) (seen : bool)
  : option Z :=
  match s with
  | c :: s' =>
      match digit_value radix c with
      | Some v => read_digits radix s' (radix * acc + v) true
      | None => if seen then Some acc else None
      end
  | [] => if seen then Some acc else None
  end.

(** The steps of [parseInt] after the sign has been read: the radix is
    checked, a hexadecimal prefix is removed when the radix allows it, and
    the digits are read. *)
Definition parse_magnitude (sign : Z) (s : jsstring) (radix : Z) : number :=
  if negb (radix =? 0) && ((radix <? 2) || (36 <? radix)) then NaN
  else
    let strip := (radix =? 0) || (radix =? 16) in
    let r0 := if radix =? 0 then 10 else radix in
    let '(r, s') :=
      match s with
      | c0 :: c1 :: t =>
          if strip && (c0 =? 48)%N && ((c1 =? 120)%N || (c1 =? 88)%N)
          then (16, t) else (r0, s)
      | _ => (r0, s)
      end in
    match read_digits r s' 0 false with
    | Some v => toNumber (sign * v)
    | None => NaN
    end.

(** [parseInt(s, radix)]; an omitted radix is 0. *)
Definition parseInt (s : jsstring) (radix : Z) : number :=
  match skip_spaces s with
  | c :: t =>
      if (c =? 45)%N then parse_magnitude (-1) t radix
      else if (c =? 43)%N then parse_magnitude 1 t radix
      else parse_magnitude 1 (c :: t) radix
  | [] => parse_magnitude 1 [] radix
  end.

(** *** toString of an integer *)

Fixpoint chars_of_uint (d : uint) : jsstring :=
  match d with
  | Nil => []
  | D0 d => 48%N :: chars_of_uint d
  | D1 d => 49%N :: chars_of_uint d
  | D2 d => 50%N :: chars_of_uint d
  | D3 d => 51%N :: chars_of_uint d
  | D4 d => 52%N :: chars_of_uint d
  | D5 d => 53%N :: chars_of_uint d
  | D6 d => 54%N :: chars_of_uint d
  | D7 d => 55%N :: chars_of_uint d
  | D8 d => 56%N :: chars_of_uint d
  | D9 d => 57%N :: chars_of_uint d
  end.

(** Decimal digits of an integer, with a minus sign when negative: what
    [toString] gives for a bigint and for an integer-valued number below
    10^21. *)
Definition Z_toString (z : Z) : jsstring :=
  match Z.to_int z with
  | Pos d => chars_of_uint d
  | Neg d => 45%N :: chars_of_uint d
  end.

(** ** Values and objects *)

Inductive value :=
| VUndefined
| VNum (n : number)
| VStr (s : jsstring)
| VBigInt (z : Z).

Definition is_string (v : value) : bool :=
  match v with VStr _ => true | _ => false end.

(** The property key a value denotes when used as [o[v]]. For a number the
    key is the decimal form of an integer, which is what the language gives
    for the integers of magnitude below 2^53 (beyond 10^21 it writes an
    exponent, and beyond 2^53 not every integer is a number). The numbers
    keyed here are the codes of enum tables, all within that range. *)
Definition ToPropertyKey (v : value) : jsstring :=
  match v with
  | VStr s => s
  | VNum (Num z) => Z_toString z
  | VNum NaN => str "NaN"
  | VNum Infinity => str "Infinity"
  | VBigInt z => Z_toString z
  | VUndefined => str "undefined"
  end.

(** An object: its own properties in creation order. *)
Definition object := list (jsstring * value).

Fixpoint obj_get (o : object) (k : jsstring) : value :=
  match o with
  | [] => VUndefined
  | (k', v) :: o' => if jsstring_eqb k' k then v else obj_get o' k
  end.

(** [o[k] = v]: an existing property keeps its place, a new one is created
    last. *)
Fixpoint obj_set (o : object) (k : jsstring) (v : value) : object :=
  match o with
  | [] => [(k, v)]
  | (k', v') :: o' =>
      if jsstring_eqb k' k then (k', v) :: o' else (k', v') :: obj_set o' k v
  end.

(** A key that is an array index: the canonical decimal form of an integer
    below 2^32 - 1. *)
Definition array_index (k : jsstring) : option Z :=
  match read_digits 10 k 0 false with
  | Some n =>
      if jsstring_eqb (Z_toString n) k && (n <? 2 ^ 32 - 1) then Some n
      else None
  | None => None
  end.

Fixpoint insert_index (e : Z * (jsstring * value))
  (l : list (Z * (jsstring * value))) : list (Z * (jsstring * value)) :=
  match l with
  | [] => [e]
  | e' :: l' => if fst e <? fst e' then e :: l else e' :: insert_index e l'
  end.

Fixpoint index_entries (o : object) : list (Z * (jsstring * value)) :=
  match o with
  | [] => []
  | (k, v) :: o' =>
      match array_index k with
      | Some n => insert_index (n, (k, v)) (index_entries o')
      | None => index_entries o'
      end
  end.

Definition named_entries (o : object) : object :=
  filter (fun e => match array_index (fst e) with
                   | Some _ => false
                   | None => true
                   end) o.

(** [Object.entries(o)]: array-index keys in ascending numeric order, then
    the other keys in creation order. *)
Definition Object_entries (o : object) : list (jsstring * value) :=
  map snd (index_entries o) ++ named_entries o.

(** ** The enum registries (topic.ts, status.ts) *)

(** The loop both files run after the literal:
    [Object.entries(E).forEach(([name, value]) => { E[value] = name; })]. *)
Definition add_reverse_mapping (literal : object) : object :=
  fold_left (fun o e => obj_set o (ToPropertyKey (snd e)) (VStr (fst e)))
            (Object_entries literal) literal.

Definition code (name : string) (c : Z) : jsstring * value :=
  (str name, VNum (Num c)).

Definition ProposalStatus_literal : object :=
  [ code "Unspecified" 0; code "Open" 1; code "Rejected" 2;
    code "Adopted" 3; code "Executed" 4; code "Failed" 5 ].

Definition ProposalStatus : object :=
  add_reverse_mapping ProposalStatus_literal.

Definition Topic_literal : object :=
  [ code "Unspecified" 0; code "NeuronManagement" 1; code "ExchangeRate" 2;
    code "NetworkEconomics" 3; code "Governance" 4; code "NodeAdmin" 5;
    code "ParticipantManagement" 6; code "SubnetManagement" 7;
    code "NetworkCanisterManagement" 8; code "Kyc" 9;
    code "NodeProviderRewards" 10; code "IcOsVersionDeployment" 12;
    code "IcOsVersionElection" 13; code "SnsAndCommunityFund" 14;
    code "ApiBoundaryNodeManagement" 15; code "SubnetRental" 16;
    code "ProtocolCanisterManagement" 17;
    code "ServiceNervousSystemManagement" 18 ].

Definition Topic : object :=
  add_reverse_mapping Topic_literal.

(** The codes a registry literal registers, in the order it lists them. *)
Definition registered_codes (literal : object) : list Z :=
  flat_map (fun e => match snd e with
                     | VNum (Num c) => [c]
                     | _ => []
                     end) literal.

(** Code to name through the reverse mapping, then name back to code. *)
Definition code_name_code (registry : object) (c : Z) : value :=
  obj_get registry (ToPropertyKey (obj_get registry (Z_toString c))).

(** ** Results of remote calls and of property accesses *)

Inductive error :=
| TypeError          (* a property of [undefined] was read *)
| Rejected (reason : jsstring).   (* the remote call did not complete *)

Inductive Result (A : Type) :=
| Ok (a : A)
| Err (e : error).
Arguments Ok {A} a.
Arguments Err {A} e.

Definition bind {A B} (r : Result A) (f : A -> Result B) : Result B :=
  match r with
  | Ok a => f a
  | Err e => Err e
  end.

Notation "x <- r ;; k" := (bind r (fun x => k))
  (at level 61, r at next level, right associativity).

(** [a[0].f...]: reading through the first element of an optional. *)
Definition first {A} (o : option A) : Result A :=
  match o with
  | Some a => Ok a
  | None => Err TypeError
  end.

(** ** The governance interface *)

Module did.

(** Modelled from the spec: the record types declared in
    governance/governance.did.js ([ProposalId], [Proposal], [ProposalInfo],
    [ListProposalInfoResponse], [ListProposalInfo]), of which the plugin
    holds only the import. The fields the provider reads are kept: a listed
    proposal carries an optional identifier and an optional proposal with
    an optional title and a summary; the detail carries the topic and status
    codes (32-bit) and the timestamp (64-bit). A summary the provider finds
    undefined is [None]. *)
Module ProposalId.
Record t := { id : Z }.
End ProposalId.

(** Modelled from the spec: the type [Proposal] of governance.did.js, with
    the two fields the provider reads. *)
Record Proposal := {
  title : option jsstring;
  summary : option jsstring
}.

(** Modelled from the spec: the type [ProposalInfo] of governance.did.js,
    both what [list_proposals] lists and what [get_proposal_info] returns. *)
Record ProposalInfo := {
  id : option ProposalId.t;
  proposal : option Proposal;
  topic : Z;
  status : Z;
  proposal_timestamp_seconds : Z
}.

(** Modelled from the spec: the type [ListProposalInfoResponse] of
    governance.did.js. *)
Record ListProposalInfoResponse := {
  proposal_info : list ProposalInfo
}.

(** Modelled from the spec: the type [ListProposalInfo] of
    governance.did.js, with the seven fields [fetchProposals] fills in; an
    optional is empty ([None]) or holds one element. *)
Record ListProposalInfo := {
  include_reward_status : list Z;
  exclude_topic : list number;
  include_status : list Z;
  omit_large_fields : option bool;
  before_proposal : option ProposalId.t;
  include_all_manage_neuron_proposals : option bool;
  limit : number
}.

End did.

(** The governance canister as the provider sees it through the actor of
    [createGovernanceActor]: two calls, each of which may be rejected. The
    ledger is taken as it stands for the length of one query: an identifier
    resolves to the same detail each time it is asked for. *)
Record Governance := {
  list_proposals : did.ListProposalInfo -> Result did.ListProposalInfoResponse;
  get_proposal_info : Z -> Result (option did.ProposalInfo)
}.

(** ** fetchProposals *)

(** The loop that fills [exclude_topic]. *)
Definition exclude_topic_of (topicFilter : option number) : list number :=
  match topicFilter with
  | Some tf =>
      fold_left
        (fun exclude_topic e =>
           let topic := parseInt (fst e) 0 in
           if negb (isNaN topic) then
             if negb (num_eqb topic tf) then exclude_topic ++ [topic]
             else exclude_topic
           else exclude_topic)
        (Object_entries Topic) []
  | None => []
  end.

(** The [request] object of [fetchProposals]. *)
Definition request (limit : number) (statusFilter topicFilter : option number)
  : did.ListProposalInfo :=
  {| did.include_reward_status := [];
     did.exclude_topic := exclude_topic_of topicFilter;
     did.include_status :=
       match statusFilter with
       | Some s => [ToInt32 s]
       | None => []
       end;
     did.omit_large_fields := None;
     did.before_proposal := None;
     did.include_all_manage_neuron_proposals := None;
     did.limit := limit |}.

Definition fetchProposals (governance : Governance) (limit : number)
  (statusFilter topicFilter : option number)
  : Result did.ListProposalInfoResponse :=
  list_proposals governance (request limit statusFilter topicFilter).

Definition fetchProposalInfo (governance : Governance) (proposalId : Z)
  : Result (option did.ProposalInfo) :=
  get_proposal_info governance proposalId.

(** ** The command pattern *)

(** The constructs the pattern of [governanceProvider.get] is written with.
    The pattern carries the flag [i]; it has no flag [m], so [^] and [$]
    stand for the two ends of the text. *)
Inductive regex :=
| Lit (l : jsstring)            (* literal characters *)
| Plus (cls : char -> bool)     (* [c+] for a character class, greedy *)
| Cat (r1 r2 : regex)
| Opt (r : regex)               (* [(?:r)?], greedy *)
| Group (i : nat) (r : regex)   (* capturing group number [i] *)
| Eos.                          (* [$] *)

(** Canonicalize under flag [i]: a lower-case ASCII letter is compared as its
    upper-case form. No code unit outside ASCII canonicalizes to an ASCII
    one, and the pattern's literals are ASCII. *)
Definition canonicalize (c : char) : char :=
  if ((97 <=? c) && (c <=? 122))%N then (c - 32)%N else c.

Fixpoint strip_literal (l s : jsstring) : option jsstring :=
  match l, s with
  | [], _ => Some s
  | a :: l', b :: s' =>
      if (canonicalize a =? canonicalize b)%N then strip_literal l' s'
      else None
  | _ :: _, [] => None
  end.

Definition captures := list (nat * jsstring).

Fixpoint capture (c : captures) (i : nat) : option jsstring :=
  match c with
  | [] => None
  | (j, s) :: c' => if Nat.eqb j i then Some s else capture c' i
  end.

Definition continuation := jsstring -> captures -> option captures.

(** One or more characters of a class, the longest run first, giving
    characters back one at a time while the rest of the pattern fails. *)
Fixpoint repeat1 (cls : char -> bool) (s : jsstring) (c : captures)
  (k : continuation) : option captures :=
  match s with
  | x :: s' =>
      if cls x then
        match repeat1 cls s' c k with
        | Some r => Some r
        | None => k s' c
        end
      else None
  | [] => None
  end.

(** Backtracking matcher: [run r s c k] matches [r] at the head of [s] and
    hands the rest of the text and the captures to [k]. *)
Fixpoint run (r : regex) (s : jsstring) (c : captures) (k : continuation)
  : option captures :=
  match r with
  | Lit l =>
      match strip_literal l s with
      | Some s' => k s' c
      | None => None
      end
  | Plus cls => repeat1 cls s c k
  | Cat r1 r2 => run r1 s c (fun s' c' => run r2 s' c' k)
  | Opt r1 =>
      match run r1 s c k with
      | Some res => Some res
      | None => k s c
      end
  | Group i r1 =>
      run r1 s c
          (fun s' c' =>
             k s' ((i, firstn (List.length s - List.length s') s) :: c'))
  | Eos =>
      match s with
      | [] => k s c
      | _ :: _ => None
      end
  end.

(** [text.match(re)] for a pattern that starts with [^]: a match can only
    start at the first character. [None] is [null]. *)
Definition String_match (text : jsstring) (re : regex) : option captures :=
  run re text [] (fun _ c => Some c).

(** [/^!proposals(?:\s+(\d+))?(?:\s+topic\s+(\d+))?(?:\s+status\s+(\d+))?$/i] *)
Definition limit_part : regex :=
  Opt (Cat (Plus is_space) (Group 1 (Plus is_digit))).

Definition topic_part : regex :=
  Opt (Cat (Plus is_space)
      (Cat (Lit (str "topic"))
      (Cat (Plus is_space) (Group 2 (Plus is_digit))))).

Definition status_part : regex :=
  Opt (Cat (Plus is_space)
      (Cat (Lit (str "status"))
      (Cat (Plus is_space) (Group 3 (Plus is_digit))))).

Definition proposals_re : regex :=
  Cat (Lit (str "!proposals"))
      (Cat limit_part (Cat topic_part (Cat status_part Eos))).

(** [match && match[i]], when truthy: the text of a group that took part in
    a match and is not empty. *)
Definition group (m : option captures) (i : nat) : option jsstring :=
  match m with
  | Some c =>
      match capture c i with
      | Some (x :: s) => Some (x :: s)
      | _ => None
      end
  | None => None
  end.

(** The three constants [limit], [topicFilter] and [statusFilter] of
    [governanceProvider.get]. *)
Record QueryRequest := {
  q_limit : number;
  q_topicFilter : option number;
  q_statusFilter : option number
}.

Definition parse_command (text : jsstring) : QueryRequest :=
  let m := String_match text proposals_re in
  {| q_limit := match group m 1 with
                | Some d => parseInt d 10
                | None => Num 10
                end;
     q_topicFilter := option_map (fun d => parseInt d 10) (group m 2);
     q_statusFilter := option_map (fun d => parseInt d 10) (group m 3) |}.

(** ** governanceProvider.get *)

(** An element of the [proposals] array. *)
Module Summary.
Record t := {
  id : value;
  title : value;
  summary : value;
  topic : value;
  status : value;
  timestamp : value
}.
End Summary.

(** [o[0]] on an optional text. *)
Definition opt_text (o : option jsstring) : value :=
  match o with
  | Some s => VStr s
  | None => VUndefined
  end.

(** [s || dflt] on a text that may be undefined: the empty string is falsy
    too. *)
Definition or_text (o : option jsstring) (dflt : jsstring) : jsstring :=
  match o with
  | Some (x :: s) => x :: s
  | _ => dflt
  end.

(** [f !== undefined && parseInt(code) !== f]: the test that makes the loop
    [continue]. *)
Definition rejects (f : option number) (code : jsstring) : bool :=
  match f with
  | Some n => negb (num_eqb (parseInt code 0) n)
  | None => false
  end.

(** The body of [for (const p of response.proposal_info)]; [proposals] is
    the array being filled, and the result is the array at the end of the
    loop, or the first exception. *)
Fixpoint loop (governance : Governance) (topicFilter statusFilter : option number)
  (ps : list did.ProposalInfo) (proposals : list Summary.t)
  : Result (list Summary.t) :=
  match ps with
  | [] => Ok proposals
  | p :: rest =>
      pid <- first (did.id p) ;;
      let id := Z_toString (did.ProposalId.id pid) in
      prop <- first (did.proposal p) ;;
      let title := opt_text (did.title prop) in
      let summary := or_text (did.summary prop) [] in
      pInfoResult <- fetchProposalInfo governance (did.ProposalId.id pid) ;;
      pInfo <- first pInfoResult ;;
      let topic := Z_toString (did.topic pInfo) in
      let status := Z_toString (did.status pInfo) in
      let proposal_timestamp_seconds := did.proposal_timestamp_seconds pInfo in
      if rejects topicFilter topic then
        loop governance topicFilter statusFilter rest proposals
      else if rejects statusFilter status then
        loop governance topicFilter statusFilter rest proposals
      else
        loop governance topicFilter statusFilter rest
             (proposals ++
              [ {| Summary.id := VStr id;
                   Summary.title := title;
                   Summary.summary := VStr summary;
                   Summary.topic := VStr topic;
                   Summary.status := VStr status;
                   Summary.timestamp := VBigInt proposal_timestamp_seconds |} ])
  end.

(** [governanceProvider.get], on the text of the message; the result is the
    [proposals] array of the returned [data], or the reason the returned
    promise is rejected with. *)
Definition get (governance : Governance) (text : jsstring)
  : Result (list Summary.t) :=
  let q := parse_command text in
  response <- fetchProposals governance (q_limit q) (q_statusFilter q)
                             (q_topicFilter q) ;;
  loop governance (q_topicFilter q) (q_statusFilter q)
       (did.proposal_info response) [].

(** ** The earlier provider (starter plugin)

    The variant of the provider that filters by topic on the client only and
    returns lines of text. *)
Module starter.

(** The [request] object of this variant's [fetchProposals]. *)
Definition request (limit : number) (statusFilter : option number)
  : did.ListProposalInfo :=
  {| did.include_reward_status := [];
     did.exclude_topic := [];
     did.include_status :=
       match statusFilter with
       | Some s => [ToInt32 s]
       | None => []
       end;
     did.omit_large_fields := None;
     did.before_proposal := None;
     did.include_all_manage_neuron_proposals := None;
     did.limit := limit |}.

Definition fetchProposals (governance : Governance) (limit : number)
  (statusFilter : option number) : Result did.ListProposalInfoResponse :=
  list_proposals governance (request limit statusFilter).

(** A value inside a template literal. *)
Definition ToString (v : value) : jsstring :=
  match v with
  | VStr s => s
  | VUndefined => str "undefined"
  | other => ToPropertyKey other
  end.

(** The loop of this variant; [content] holds the [text] of each element. *)
Fixpoint loop (governance : Governance) (topicFilter statusFilter : option number)
  (ps : list did.ProposalInfo) (content : list jsstring)
  : Result (list jsstring) :=
  match ps with
  | [] => Ok content
  | p :: rest =>
      pid <- first (did.id p) ;;
      let id := Z_toString (did.ProposalId.id pid) in
      prop <- first (did.proposal p) ;;
      let title := opt_text (did.title prop) in
      let summary := or_text (did.summary prop) (str "No summary provided") in
      pInfoResult <- fetchProposalInfo governance (did.ProposalId.id pid) ;;
      pInfo <- first pInfoResult ;;
      let topic := Z_toString (did.topic pInfo) in
      let status := Z_toString (did.status pInfo) in
      if rejects topicFilter topic then
        loop governance topicFilter statusFilter rest content
      else if rejects statusFilter status then
        loop governance topicFilter statusFilter rest content
      else
        loop governance topicFilter statusFilter rest
             (content ++
              [ str "#" ++ id ++ str " " ++ ToString title;
                str "Topic: " ++ topic;
                str "Status: " ++ status;
                str "Summary: " ++ summary ])
  end.

Definition get (governance : Governance) (text : jsstring)
  : Result (list jsstring) :=
  let q := parse_command text in
  response <- fetchProposals governance (q_limit q) (q_statusFilter q) ;;
  loop governance (q_topicFilter q) (q_statusFilter q)
       (did.proposal_info response) [].

End starter.

(** ** Notions the properties are stated with *)

(** The value of a string of decimal digits. *)
Definition decimal_value (s : jsstring) : Z :=
  fold_left (fun acc c => 10 * acc + (Z.of_N c - 48)) s 0.

Definition numeral (s : jsstring) : Prop :=
  s <> [] /\ Forall (fun c => is_digit c = true) s.

(** The value of a digit sequence read from the left, starting from [acc]. *)
Fixpoint uint_value (d : uint) (acc : Z) : Z :=
  match d with
  | Nil => acc
  | D0 d => uint_value d (10 * acc + 0)
  | D1 d => uint_value d (10 * acc + 1)
  | D2 d => uint_value d (10 * acc + 2)
  | D3 d => uint_value d (10 * acc + 3)
  | D4 d => uint_value d (10 * acc + 4)
  | D5 d => uint_value d (10 * acc + 5)
  | D6 d => uint_value d (10 * acc + 6)
  | D7 d => uint_value d (10 * acc + 7)
  | D8 d => uint_value d (10 * acc + 8)
  | D9 d => uint_value d (10 * acc + 9)
  end.

(** *** The command pattern *)

(** The text is empty or starts with a character outside the class. *)
Definition stops (cls : char -> bool) (s : jsstring) : Prop :=
  match s with
  | [] => True
  | x :: _ => cls x = false
  end.

(** *** The command grammar
    [!proposals [<limit>] [topic <id>] [status <id>]]: keywords in any letter
    case, fields separated by white space, in this order. *)

(** A non-empty run of white space. *)
Definition blank (w : jsstring) : Prop :=
  w <> [] /\ Forall (fun c => is_space c = true) w.

(** [s] is the word [l] up to the case of its letters. *)
Definition spells (l : string) (s : jsstring) : Prop :=
  Forall2 (fun a b => canonicalize a = canonicalize b) (str l) s.

(** A keyword followed by a number: [<gap> <word> <gap> <digits>]. *)
Record field := {
  f_gap : jsstring;
  f_word : jsstring;
  f_sep : jsstring;
  f_digits : jsstring
}.

Definition field_text (f : option field) : jsstring :=
  match f with
  | Some f => f_gap f ++ f_word f ++ f_sep f ++ f_digits f
  | None => []
  end.

Definition field_ok (keyword : string) (f : option field) : Prop :=
  match f with
  | Some f => blank (f_gap f) /\ spells keyword (f_word f)
              /\ blank (f_sep f) /\ numeral (f_digits f)
  | None => True
  end.

(** A command of the grammar, by its parts. *)
Record command := {
  cmd_word : jsstring;
  cmd_limit : option (jsstring * jsstring);   (* gap, digits *)
  cmd_topic : option field;
  cmd_status : option field
}.

Definition limit_text (l : option (jsstring * jsstring)) : jsstring :=
  match l with
  | Some (gap, digits) => gap ++ digits
  | None => []
  end.

Definition command_text (c : command) : jsstring :=
  cmd_word c ++ limit_text (cmd_limit c)
             ++ field_text (cmd_topic c) ++ field_text (cmd_status c).

Definition command_ok (c : command) : Prop :=
  spells "!proposals" (cmd_word c)
  /\ match cmd_limit c with
     | Some (gap, digits) => blank gap /\ numeral digits
     | None => True
     end
  /\ field_ok "topic" (cmd_topic c)
  /\ field_ok "status" (cmd_status c).

(** What the digits of a command denote as numbers: each numeral is read
    as its number value, a missing limit is 10, a missing filter is unset. *)
Definition denoted (c : command) : QueryRequest :=
  {| q_limit := match cmd_limit c with
                | Some (_, digits) => toNumber (decimal_value digits)
                | None => Num 10
                end;
     q_topicFilter :=
       option_map (fun f => toNumber (decimal_value (f_digits f))) (cmd_topic c);
     q_statusFilter :=
       option_map (fun f => toNumber (decimal_value (f_digits f))) (cmd_status c) |}.

(** The same with every numeral standing for exactly its decimal value. *)
Definition literal (c : command) : QueryRequest :=
  {| q_limit := match cmd_limit c with
                | Some (_, digits) => Num (decimal_value digits)
                | None => Num 10
                end;
     q_topicFilter :=
       option_map (fun f => Num (decimal_value (f_digits f))) (cmd_topic c);
     q_statusFilter :=
       option_map (fun f => Num (decimal_value (f_digits f))) (cmd_status c) |}.

(** Every numeral of the command is below 2^53. *)
Definition small_numerals (c : command) : Prop :=
  match cmd_limit c with
  | Some (_, digits) => decimal_value digits < 2 ^ 53
  | None => True
  end
  /\ match cmd_topic c with
     | Some f => decimal_value (f_digits f) < 2 ^ 53
     | None => True
     end
  /\ match cmd_status c with
     | Some f => decimal_value (f_digits f) < 2 ^ 53
     | None => True
     end.

(** A keyword field of the pattern, as [topic_part] and [status_part] are
    made. *)
Definition field_re (kw : string) (i : nat) : regex :=
  Cat (Plus is_space)
      (Cat (Lit (str kw)) (Cat (Plus is_space) (Group i (Plus is_digit)))).

(** The text holds no limit here: after white space, if any, comes the end
    or a character that is neither white space nor a digit. *)
Definition no_number (s : jsstring) : Prop :=
  exists w r, s = w ++ r /\ Forall (fun x => is_space x = true) w
              /\ stops is_space r /\ stops is_digit r.

(** The text holds no field of keyword [kw] here: after white space, if any,
    comes the end or a letter other than the first of [kw]. *)
Definition no_keyword (k : N) (s : jsstring) : Prop :=
  exists w r, s = w ++ r /\ Forall (fun x => is_space x = true) w
              /\ stops is_space r
              /\ match r with
                 | [] => True
                 | h :: _ => canonicalize h <> k
                 end.

(** The captures a field leaves. *)
Definition field_captures (i : nat) (f : option field) : captures :=
  match f with
  | Some f => [(i, f_digits f)]
  | None => []
  end.

Definition limit_captures (l : option (jsstring * jsstring)) : captures :=
  match l with
  | Some (_, digits) => [(1%nat, digits)]
  | None => []
  end.

(** The continuation at the end of the pattern. *)
Definition matched : continuation := fun _ c => Some c.

(** *** The query *)

(** The request [governanceProvider.get] sends for a text. *)
Definition request_of (text : jsstring) : did.ListProposalInfo :=
  let q := parse_command text in
  request (q_limit q) (q_statusFilter q) (q_topicFilter q).

(** What the loop reads of one listed proposal: its identifier, its
    proposal, and the detail [fetchProposalInfo] resolves it to. *)
Record resolved := {
  r_id : Z;
  r_proposal : did.Proposal;
  r_detail : did.ProposalInfo
}.

Definition resolve (governance : Governance) (p : did.ProposalInfo)
  : Result resolved :=
  pid <- first (did.id p) ;;
  prop <- first (did.proposal p) ;;
  pInfoResult <- fetchProposalInfo governance (did.ProposalId.id pid) ;;
  pInfo <- first pInfoResult ;;
  Ok {| r_id := did.ProposalId.id pid; r_proposal := prop; r_detail := pInfo |}.

(** The record pushed for a listed proposal and its detail. *)
Definition project (x : resolved) : Summary.t :=
  {| Summary.id := VStr (Z_toString (r_id x));
     Summary.title := opt_text (did.title (r_proposal x));
     Summary.summary := VStr (or_text (did.summary (r_proposal x)) []);
     Summary.topic := VStr (Z_toString (did.topic (r_detail x)));
     Summary.status := VStr (Z_toString (did.status (r_detail x)));
     Summary.timestamp := VBigInt (did.proposal_timestamp_seconds (r_detail x)) |}.

(** The detail passes a filter: the filter is unset, or the code of the
    detail is the filter's number. *)
Definition passes (f : option number) (code : Z) : bool :=
  match f with
  | Some n => num_eqb (toNumber code) n
  | None => true
  end.

(** An item survives when its detail passes both filters. *)
Definition survives (topicFilter statusFilter : option number) (x : resolved)
  : bool :=
  passes topicFilter (did.topic (r_detail x))
  && passes statusFilter (did.status (r_detail x)).

(** The code an emitted field holds, read the way the plugin's tests read
    it. *)
Definition code_of (v : value) : number :=
  match v with
  | VStr s => parseInt s 10
  | _ => NaN
  end.

(** The four lines the earlier provider pushes for an item. *)
Definition starter_lines (x : resolved) : list jsstring :=
  [ str "#" ++ Z_toString (r_id x) ++ str " "
      ++ starter.ToString (opt_text (did.title (r_proposal x)));
    str "Topic: " ++ Z_toString (did.topic (r_detail x));
    str "Status: " ++ Z_toString (did.status (r_detail x));
    str "Summary: "
      ++ or_text (did.summary (r_proposal x)) (str "No summary provided") ].

(** *** A sample ledger *)

Definition listed (i : Z) (title summary : option jsstring)
  : did.ProposalInfo :=
  {| did.id := Some {| did.ProposalId.id := i |};
     did.proposal := Some {| did.title := title; did.summary := summary |};
     did.topic := 0; did.status := 0;
     did.proposal_timestamp_seconds := 0 |}.

Definition detail (i topic status seconds : Z) : did.ProposalInfo :=
  {| did.id := Some {| did.ProposalId.id := i |};
     did.proposal := None;
     did.topic := topic; did.status := status;
     did.proposal_timestamp_seconds := seconds |}.

Definition sample_list : list did.ProposalInfo :=
  [ listed 101 (Some (str "Upgrade the registry")) (Some (str "Motion text"));
    listed 102 None None;
    listed 103 (Some (str "Elect a version")) (Some (str "Release notes")) ].

Definition sample_info (i : Z) : Result (option did.ProposalInfo) :=
  if i =? 101 then Ok (Some (detail 101 17 4 1700000000))
  else if i =? 102 then Ok (Some (detail 102 17 4 1700000600))
  else if i =? 103 then Ok (Some (detail 103 13 1 1700001200))
  else Ok None.

(** A ledger that lists three proposals whatever the request, and knows the
    detail of each. *)
Definition sample : Governance :=
  {| list_proposals := fun _ => Ok {| did.proposal_info := sample_list |};
     get_proposal_info := sample_info |}.

(** The same ledger listing, in second place, a proposal whose detail it
    does not hold. *)
Definition sample_missing : Governance :=
  {| list_proposals := fun _ =>
       Ok {| did.proposal_info :=
               [ listed 101 (Some (str "Upgrade the registry"))
                        (Some (str "Motion text"));
                 listed 104 (Some (str "Lost")) (Some (str "No detail"));
                 listed 102 None None ] |};
     get_proposal_info := sample_info |}.

(** The same ledger without that proposal in its list. *)
Definition sample_without : Governance :=
  {| list_proposals := fun _ =>
       Ok {| did.proposal_info :=
               [ listed 101 (Some (str "Upgrade the registry"))
                        (Some (str "Motion text"));
                 listed 102 None None ] |};
     get_proposal_info := sample_info |}.

Definition sample_untitled : resolved :=
  {| r_id := 102;
     r_proposal := {| did.title := None; did.summary := None |};
     r_detail := detail 102 17 4 1700000600 |}.

Definition sample_resolved : list resolved :=
  [ {| r_id := 101;
       r_proposal := {| did.title := Some (str "Upgrade the registry");
                        did.summary := Some (str "Motion text") |};
       r_detail := detail 101 17 4 1700000000 |};
    sample_untitled;
    {| r_id := 103;
       r_proposal := {| did.title := Some (str "Elect a version");
                        did.summary := Some (str "Release notes") |};
       r_detail := detail 103 13 1 1700001200 |} ].

(** A command with a limit beyond 2^53. *)
Definition large_limit : command :=
  {| cmd_word := str "!proposals";
     cmd_limit := Some (str " ", str "9007199254740993");
     cmd_topic := None;
     cmd_status := None |}.

(** [!Proposals 0 topic 17  status 4] *)
Definition zero_limit : command :=
  {| cmd_word := str "!Proposals";
     cmd_limit := Some (str " ", str "0");
     cmd_topic := Some {| f_gap := str " "; f_word := str "topic";
                          f_sep := str " "; f_digits := str "17" |};
     cmd_status := Some {| f_gap := str "  "; f_word := str "STATUS";
                           f_sep := str " "; f_digits := str "4" |} |}.

Definition topic_codes : list Z :=
  [0; 1; 2; 3; 4; 5; 6; 7; 8; 9; 10; 12; 13; 14; 15; 16; 17; 18].

Definition status_codes : list Z := [0; 1; 2; 3; 4; 5].

Definition sample_text : jsstring := str "!proposals 20 topic 17 status 4".

(** The request of a query with limit 10 and no filter at all. *)
Definition default_request : did.ListProposalInfo :=
  {| did.include_reward_status := [];
     did.exclude_topic := [];
     did.include_status := [];
     did.omit_large_fields := None;
     did.before_proposal := None;
     did.include_all_manage_neuron_proposals := None;
     did.limit := Num 10 |}.

Definition is_default_request (r : did.ListProposalInfo) : bool :=
  match did.include_reward_status r, did.exclude_topic r,
        did.include_status r, did.omit_large_fields r,
        did.before_proposal r, did.include_all_manage_neuron_proposals r with
  | [], [], [], None, None, None => num_eqb (did.limit r) (Num 10)
  | _, _, _, _, _, _ => false
  end.

(** The sample ledger, answering the list call only when it is asked for ten
    proposals without any filter, and rejecting every other request. *)
Definition sample_default_only : Governance :=
  {| list_proposals := fun r =>
       if is_default_request r
       then Ok {| did.proposal_info := sample_list |}
       else Err (Rejected (str "unexpected request"));
     get_proposal_info := sample_info |}.

(** ** The rest of the plugin *)

(** A number a string of digits can denote: not [NaN], not negative. *)
Definition natural (n : number) : Prop :=
  match n with
  | Num z => 0 <= z
  | Infinity => True
  | NaN => False
  end.

(** A 32-bit signed integer, as the interface declares the topic and status
    codes of a detail. *)
Definition int32 (z : Z) : Prop := - 2 ^ 31 <= z < 2 ^ 31.

(** Every detail the ledger returns carries 32-bit codes. *)
Definition typed_ledger (governance : Governance) : Prop :=
  forall i d, get_proposal_info governance i = Ok (Some d) ->
              int32 (did.topic d) /\ int32 (did.status d).

(** *** Enum literals *)

Definition is_letter (c : char) : bool :=
  (((65 <=? c) && (c <=? 90)) || ((97 <=? c) && (c <=? 122)))%N.

(** A key written as an identifier that starts with a letter. *)
Definition named (k : jsstring) : bool :=
  match k with
  | h :: _ => is_letter h
  | [] => false
  end.

Fixpoint distinct {A} (eqb : A -> A -> bool) (l : list A) : bool :=
  match l with
  | [] => true
  | a :: l' => negb (existsb (eqb a) l') && distinct eqb l'
  end.

(** An enum literal as topic.ts and status.ts write one: each property is a
    name with an integer code of magnitude below 2^53 (an integer the
    language holds exactly and writes in plain digits when it is used as a
    key), no name occurs twice and no code occurs twice. *)
Definition enum_literal (literal : object) : bool :=
  forallb (fun e => named (fst e)
                    && match snd e with
                       | VNum (Num c) => Z.abs c <? 2 ^ 53
                       | _ => false
                       end) literal
  && distinct jsstring_eqb (map fst literal)
  && distinct Z.eqb (registered_codes literal).

(** *** The first provider

    The provider of the first plugin file: it reads a limit only, sends no
    filter and returns one line of text for each listed proposal, without
    asking for any detail. *)
Module listing.

(** The [request] object of this variant's [fetchProposals]. *)
Definition request (limit : number) : did.ListProposalInfo :=
  {| did.include_reward_status := [];
     did.exclude_topic := [];
     did.include_status := [];
     did.omit_large_fields := None;
     did.before_proposal := None;
     did.include_all_manage_neuron_proposals := None;
     did.limit := limit |}.

Definition fetchProposals (governance : Governance) (limit : number)
  : Result did.ListProposalInfoResponse :=
  list_proposals governance (request limit).

(** [/^!proposals(?:\s+(\d+))?$/i] *)
Definition proposals_re : regex :=
  Cat (Lit (str "!proposals")) (Cat limit_part Eos).

(** The constant [limit] of this variant's [get]. *)
Definition limit_of (text : jsstring) : number :=
  match group (String_match text proposals_re) 1 with
  | Some d => parseInt d 10
  | None => Num 10
  end.

(** The loop of this variant; [content] holds the [text] of each element. *)
Fixpoint loop (ps : list did.ProposalInfo) (content : list jsstring)
  : Result (list jsstring) :=
  match ps with
  | [] => Ok content
  | p :: rest =>
      pid <- first (did.id p) ;;
      let id := Z_toString (did.ProposalId.id pid) in
      prop <- first (did.proposal p) ;;
      let title := opt_text (did.title prop) in
      loop rest (content ++ [str "#" ++ id ++ str " " ++ starter.ToString title])
  end.

Definition get (governance : Governance) (text : jsstring)
  : Result (list jsstring) :=
  response <- fetchProposals governance (limit_of text) ;;
  loop (did.proposal_info response) [].

End listing.

(** The line the first provider pushes for a listed proposal. *)
Definition headline (p : did.ProposalInfo) : Result jsstring :=
  pid <- first (did.id p) ;;
  prop <- first (did.proposal p) ;;
  Ok (str "#" ++ Z_toString (did.ProposalId.id pid) ++ str " "
        ++ starter.ToString (opt_text (did.title prop))).

(** A command with a limit and a topic: [!proposals 50 topic 13]. *)
Definition limit_and_topic : command :=
  {| cmd_word := str "!proposals";
     cmd_limit := Some (str " ", str "50");
     cmd_topic := Some {| f_gap := str " "; f_word := str "topic";
                          f_sep := str " "; f_digits := str "13" |};
     cmd_status := None |}.

(** A command with a limit only: [!proposals 7]. *)
Definition limit_only : command :=
  {| cmd_word := str "!proposals";
     cmd_limit := Some (str " ", str "7");
     cmd_topic := None;
     cmd_status := None |}.

(** *** The test suites of the plugins *)

(** How a test function ends when it does not pass. *)
Inductive exception :=
| Thrown (message : jsstring)   (* [throw new Error(message)] *)
| Raised (e : error).           (* the awaited [provider.get] was rejected *)

Inductive outcome :=
| Passed
| Failed (x : exception).

(** Strict equality [===] on values. *)
Definition strict_equal (a b : value) : bool :=
  match a, b with
  | VUndefined, VUndefined => true
  | VNum x, VNum y => num_eqb x y
  | VStr x, VStr y => jsstring_eqb x y
  | VBigInt x, VBigInt y => x =? y
  | _, _ => false
  end.

(** [typeof v === 'string' && v.length], as a condition. *)
Definition nonempty_string (v : value) : bool :=
  match v with
  | VStr (_ :: _) => true
  | _ => false
  end.

(** [s.startsWith(prefix)] *)
Fixpoint startsWith (s prefix : jsstring) : bool :=
  match prefix, s with
  | [], _ => true
  | a :: prefix', b :: s' => (a =? b)%N && startsWith s' prefix'
  | _ :: _, [] => false
  end.

(** The test suite of the final plugin; each test is run against the ledger
    its provider reaches. *)
Module nnsPlugin.

Record Provider := {
  name : jsstring;
  provider_get : Governance -> jsstring -> Result (list Summary.t)
}.

Definition governanceProvider : Provider :=
  {| name := str "GOVERNANCE_PROVIDER"; provider_get := get |}.

Definition providers : list Provider := [governanceProvider].

(** [nnsPlugin.providers.find(p => p.name === 'GOVERNANCE_PROVIDER')] *)
Definition find_provider : option Provider :=
  find (fun p => jsstring_eqb (name p) (str "GOVERNANCE_PROVIDER")) providers.

Definition should_have_governance_provider : outcome :=
  if negb (existsb (fun p => jsstring_eqb (name p) (str "GOVERNANCE_PROVIDER"))
                   providers)
  then Failed (Thrown (str "Governance provider not found in plugin providers"))
  else Passed.

Definition governance_proposals_include_topic_status_summary
  (governance : Governance) : outcome :=
  match find_provider with
  | None => Failed (Thrown (str "Governance provider not found"))
  | Some provider =>
      match provider_get provider governance (str "!proposals 10") with
      | Err e => Failed (Raised e)
      | Ok proposals =>
          if (List.length proposals =? 0)%nat then
            Failed (Thrown (str "No proposals returned"))
          else if negb (existsb (fun p => nonempty_string (Summary.topic p))
                                proposals) then
            Failed (Thrown (str "Missing topic in proposals"))
          else if negb (existsb (fun p => nonempty_string (Summary.status p))
                                proposals) then
            Failed (Thrown (str "Missing status in proposals"))
          else if negb (existsb (fun p => is_string (Summary.summary p))
                                proposals) then
            Failed (Thrown (str "Missing summary in proposals"))
          else Passed
      end
  end.

(** [for (const p of proposals) if (parseInt(p.f, 10) !== code) throw ...] *)
Fixpoint expect_code (field : Summary.t -> value) (what : string)
  (code : value) (proposals : list Summary.t) : outcome :=
  match proposals with
  | [] => Passed
  | p :: rest =>
      if negb (strict_equal
                 (VNum (parseInt (starter.ToString (field p)) 10)) code)
      then Failed (Thrown (str "Expected " ++ str what ++ str " '"
                             ++ starter.ToString code ++ str "' but got '"
                             ++ starter.ToString (field p) ++ str "'"))
      else expect_code field what code rest
  end.

Definition governance_provider_filters_by_topic_ProtocolCanisterManagement
  (governance : Governance) : outcome :=
  match find_provider with
  | None => Failed (Thrown (str "Governance provider not found"))
  | Some provider =>
      let topicId := obj_get Topic (str "ProtocolCanisterManagement") in
      let text := str "!proposals 50 topic " ++ starter.ToString topicId in
      match provider_get provider governance text with
      | Err e => Failed (Raised e)
      | Ok proposals => expect_code Summary.topic "topic" topicId proposals
      end
  end.

Definition governance_provider_filters_by_topic_IcOsVersionElection
  (governance : Governance) : outcome :=
  match find_provider with
  | None => Failed (Thrown (str "Governance provider not found"))
  | Some provider =>
      let topicId := obj_get Topic (str "IcOsVersionElection") in
      let statusId := obj_get ProposalStatus (str "Executed") in
      let text := str "!proposals 20 topic " ++ starter.ToString topicId
                    ++ str " status " ++ starter.ToString statusId in
      match provider_get provider governance text with
      | Err e => Failed (Raised e)
      | Ok proposals => expect_code Summary.topic "topic" topicId proposals
      end
  end.

Definition governance_provider_filters_by_status
  (governance : Governance) : outcome :=
  match find_provider with
  | None => Failed (Thrown (str "Governance provider not found"))
  | Some provider =>
      let statusId := obj_get ProposalStatus (str "Open") in
      let text := str "!proposals 10 status " ++ starter.ToString statusId in
      match provider_get provider governance text with
      | Err e => Failed (Raised e)
      | Ok proposals =>
          if (List.length proposals =? 0)%nat then
            Failed (Thrown (str "No proposals returned"))
          else expect_code Summary.status "status" statusId proposals
      end
  end.

End nnsPlugin.

(** The test suite of the earlier plugin, whose provider returns lines of
    text. *)
Module starterPlugin.

Record Provider := {
  name : jsstring;
  provider_get : Governance -> jsstring -> Result (list jsstring)
}.

Definition governanceProvider : Provider :=
  {| name := str "GOVERNANCE_PROVIDER"; provider_get := starter.get |}.

Definition providers : list Provider := [governanceProvider].

Definition find_provider : option Provider :=
  find (fun p => jsstring_eqb (name p) (str "GOVERNANCE_PROVIDER")) providers.

Definition governance_content_includes_topic_status_summary
  (governance : Governance) : outcome :=
  match find_provider with
  | None => Failed (Thrown (str "Governance provider not found"))
  | Some provider =>
      match provider_get provider governance (str "!proposals 10") with
      | Err e => Failed (Raised e)
      | Ok content =>
          if negb (existsb (fun t => startsWith t (str "Topic:")) content) then
            Failed (Thrown (str "Missing Topic in content"))
          else if negb (existsb (fun t => startsWith t (str "Status:"))
                                content) then
            Failed (Thrown (str "Missing Status in content"))
          else if negb (existsb (fun t => startsWith t (str "Summary:"))
                                content) then
            Failed (Thrown (str "Missing Summary in content"))
          else Passed
      end
  end.

(** [for (const line of lines) if (line.text !== expected) throw ...] *)
Fixpoint expect_lines (what : string) (code : value) (expected : jsstring)
  (lines : list jsstring) : outcome :=
  match lines with
  | [] => Passed
  | line :: rest =>
      if negb (jsstring_eqb line expected)
      then Failed (Thrown (str "Expected " ++ str what ++ str " '"
                             ++ starter.ToString code ++ str "' but got '"
                             ++ line ++ str "'"))
      else expect_lines what code expected rest
  end.

Definition governance_provider_filters_by_topic
  (governance : Governance) : outcome :=
  match find_provider with
  | None => Failed (Thrown (str "Governance provider not found"))
  | Some provider =>
      let topicId := obj_get Topic (str "IcOsVersionElection") in
      let text := str "!proposals 50 topic " ++ starter.ToString topicId in
      match provider_get provider governance text with
      | Err e => Failed (Raised e)
      | Ok contentItems =>
          let topicLines :=
            filter (fun item => startsWith item (str "Topic:")) contentItems in
          expect_lines "topic" topicId
                       (str "Topic: " ++ starter.ToString topicId) topicLines
      end
  end.

Definition governance_provider_filters_by_status
  (governance : Governance) : outcome :=
  match find_provider with
  | None => Failed (Thrown (str "Governance provider not found"))
  | Some provider =>
      let statusId := VNum (Num 4) in
      let text := str "!proposals 5 status " ++ starter.ToString statusId in
      match provider_get provider governance text with
      | Err e => Failed (Raised e)
      | Ok items =>
          let statusLines :=
            filter (fun item => startsWith item (str "Status:")) items in
          if (List.length statusLines =? 0)%nat then
            Failed (Thrown (str "No Status entries found"))
          else expect_lines "status" statusId
                            (str "Status: " ++ starter.ToString statusId)
                            statusLines
      end
  end.

End starterPlugin.


(** * Properties *)

(** ** The program on sample inputs *)

Example parse_bare :
  parse_command (str "!proposals")
  = {| q_limit := Num 10; q_topicFilter := None; q_statusFilter := None |}.
Proof. reflexivity. Qed.

Example parse_full :
  parse_command (str "!PROPOSALS 20 topic 17 status 4")
  = {| q_limit := Num 20;
       q_topicFilter := Some (Num 17);
       q_statusFilter := Some (Num 4) |}.
Proof. vm_compute. reflexivity. Qed.

Example parse_topic_only :
  parse_command (str "!proposals   topic 013")
  = {| q_limit := Num 10;
       q_topicFilter := Some (Num 13);
       q_statusFilter := None |}.
Proof. vm_compute. reflexivity. Qed.

Example parse_trailing_space :
  String_match (str "!proposals 10 ") proposals_re = None.
Proof. reflexivity. Qed.

Example parse_two_numbers :
  String_match (str "!proposals 1 2") proposals_re = None.
Proof. reflexivity. Qed.

Example parseInt_samples :
  parseInt (str "  -12px") 0 = Num (-12)
  /\ parseInt (str "0x1F") 0 = Num 31
  /\ parseInt (str "0x1F") 10 = Num 0
  /\ parseInt (str "Kyc") 0 = NaN
  /\ parseInt (str "9007199254740995") 10 = Num 9007199254740996.
Proof. vm_compute. repeat split. Qed.

Example Topic_13 :
  obj_get Topic (str "13") = VStr (str "IcOsVersionElection")
  /\ obj_get Topic (str "IcOsVersionElection") = VNum (Num 13)
  /\ obj_get Topic (str "11") = VUndefined.
Proof. vm_compute. repeat split. Qed.

Example request_topic_13 :
  request (Num 50) None (Some (Num 13))
  = {| did.include_reward_status := [];
       did.exclude_topic :=
         map Num [0; 1; 2; 3; 4; 5; 6; 7; 8; 9; 10; 12; 14; 15; 16; 17; 18];
       did.include_status := [];
       did.omit_large_fields := None;
       did.before_proposal := None;
       did.include_all_manage_neuron_proposals := None;
       did.limit := Num 50 |}.
Proof. vm_compute. reflexivity. Qed.

Example sample_unfiltered :
  get sample (str "!proposals") = Ok (map project sample_resolved).
Proof. vm_compute. reflexivity. Qed.

Example starter_sample :
  starter.get sample (str "!proposals 5 topic 13")
  = Ok [ str "#103 Elect a version"; str "Topic: 13"; str "Status: 1";
         str "Summary: Release notes" ].
Proof. vm_compute. reflexivity. Qed.

(** ** Numbers and their decimal form *)

Lemma toNumber_exact z : Z.abs z < 2 ^ 53 -> toNumber z = Num z.
Proof.
  intros H. unfold toNumber.
  destruct (Z.ltb_spec (Z.abs z) (2 ^ 53)); [reflexivity | lia].
Qed.

Lemma num_eqb_eq a b : num_eqb a b = true -> a = b.
Proof.
  destruct a, b; simpl; try discriminate; try reflexivity.
  intros H. apply Z.eqb_eq in H. now subst.
Qed.


Lemma of_uint_acc_value d p :
  Z.pos (Pos.of_uint_acc d p) = uint_value d (Z.pos p).
Proof.
  revert p. induction d; intros p;
    cbn [Pos.of_uint_acc uint_value]; try reflexivity;
    rewrite IHd; f_equal; lia.
Qed.

Lemma of_uint_value d : Z.of_uint d = uint_value d 0.
Proof.
  unfold Z.of_uint.
  induction d; cbn [Pos.of_uint uint_value Z.of_N];
    try reflexivity; try assumption;
    rewrite of_uint_acc_value; reflexivity.
Qed.

Lemma read_digits_uint d acc seen :
  read_digits 10 (chars_of_uint d) acc seen =
  match d with
  | Nil => if seen then Some acc else None
  | _ => Some (uint_value d acc)
  end.
Proof.
  revert acc seen. induction d; intros acc seen; try reflexivity;
    cbn [chars_of_uint read_digits uint_value];
    match goal with
    | |- context [digit_value 10 ?c] =>
        let v := eval vm_compute in (digit_value 10 c) in
        change (digit_value 10 c) with v
    end; cbv beta iota; rewrite IHd; destruct d; reflexivity.
Qed.

Lemma to_uint_not_Nil n : N.to_uint n <> Nil.
Proof.
  destruct n; simpl; [discriminate | apply Unsigned.to_uint_nonnil].
Qed.

Lemma read_digits_to_uint n :
  read_digits 10 (chars_of_uint (N.to_uint n)) 0 false = Some (Z.of_N n).
Proof.
  rewrite read_digits_uint.
  pose proof (to_uint_not_Nil n) as Hn.
  pose proof (DecimalN.Unsigned.of_to n) as Hof.
  assert (Hv : uint_value (N.to_uint n) 0 = Z.of_N n).
  { rewrite <- of_uint_value. unfold Z.of_uint.
    unfold N.of_uint in Hof. now rewrite Hof. }
  destruct (N.to_uint n); try congruence.
Qed.


Lemma is_digit_range c : is_digit c = true -> 48 <= Z.of_N c <= 57.
Proof.
  unfold is_digit. intros H. apply andb_prop in H as [H1 H2].
  apply Z.leb_le in H1, H2. lia.
Qed.

Lemma digit_not_space c : is_digit c = true -> is_space c = false.
Proof.
  intros H. apply is_digit_range in H. unfold is_space.
  repeat (apply orb_false_intro); try (apply Z.eqb_neq; lia).
  apply andb_false_iff. left. apply Z.leb_gt. lia.
Qed.

Lemma digit_value_digit c :
  is_digit c = true -> digit_value 10 c = Some (Z.of_N c - 48).
Proof.
  intros H. pose proof (is_digit_range c H) as R. unfold digit_value.
  unfold is_digit in H. cbv zeta. rewrite H.
  destruct (Z.ltb_spec (Z.of_N c - 48) 10); [reflexivity | lia].
Qed.

Lemma read_digits_numeral s acc seen :
  Forall (fun c => is_digit c = true) s ->
  read_digits 10 s acc seen =
  match s with
  | [] => if seen then Some acc else None
  | _ => Some (fold_left (fun a c => 10 * a + (Z.of_N c - 48)) s acc)
  end.
Proof.
  intros H. revert acc seen.
  induction H as [| c s Hc Hs IH]; intros acc seen; [reflexivity |].
  cbn [read_digits fold_left]. rewrite (digit_value_digit c Hc), IH.
  destruct s; reflexivity.
Qed.

Lemma eqb_N_false (c : N) (k : Z) :
  Z.of_N c <> k -> forall n, Z.of_N n = k -> (c =? n)%N = false.
Proof. intros H n Hn. apply N.eqb_neq. intros ->. lia. Qed.

Lemma parse_magnitude_numeral sign s radix :
  numeral s -> radix = 10 \/ radix = 0 ->
  parse_magnitude sign s radix = toNumber (sign * decimal_value s).
Proof.
  intros [Hne Hd] Hr. destruct s as [| c t]; [congruence |].
  pose proof (Forall_inv_tail Hd) as Ht.
  unfold parse_magnitude.
  assert (Hrad : negb (radix =? 0) && ((radix <? 2) || (36 <? radix)) = false)
    by (destruct Hr; subst; reflexivity).
  rewrite Hrad. cbv zeta.
  assert (Hr0 : (if radix =? 0 then 10 else radix) = 10)
    by (destruct Hr; subst; reflexivity).
  rewrite Hr0.
  destruct t as [| c1 t'].
  - rewrite (read_digits_numeral [c] 0 false Hd). reflexivity.
  - pose proof (is_digit_range c1 (Forall_inv Ht)) as R1.
    rewrite (eqb_N_false c1 120 ltac:(lia) 120%N eq_refl).
    rewrite (eqb_N_false c1 88 ltac:(lia) 88%N eq_refl).
    rewrite andb_false_r.
    rewrite (read_digits_numeral (c :: c1 :: t') 0 false Hd). reflexivity.
Qed.

(** On a string of digits [parseInt] reads every digit, whether the radix is
    10 or omitted. *)
Lemma parseInt_numeral s radix :
  numeral s -> radix = 10 \/ radix = 0 ->
  parseInt s radix = toNumber (decimal_value s).
Proof.
  intros Hn Hr. pose proof Hn as [Hne Hd].
  destruct s as [| c t]; [congruence |].
  pose proof (Forall_inv Hd) as Hc.
  pose proof (is_digit_range c Hc) as Rc.
  unfold parseInt. cbn [skip_spaces]. rewrite (digit_not_space c Hc).
  rewrite (eqb_N_false c 45 ltac:(lia) 45%N eq_refl).
  rewrite (eqb_N_false c 43 ltac:(lia) 43%N eq_refl).
  rewrite (parse_magnitude_numeral 1 (c :: t) radix Hn Hr). f_equal; lia.
Qed.

Lemma parseInt_minus_numeral s radix :
  numeral s -> radix = 10 \/ radix = 0 ->
  parseInt (45%N :: s) radix = toNumber (- decimal_value s).
Proof.
  intros Hn Hr. unfold parseInt. cbn [skip_spaces].
  change (is_space 45%N) with false. cbv iota.
  change (45 =? 45)%N with true. cbv iota.
  rewrite (parse_magnitude_numeral (-1) s radix Hn Hr). f_equal; lia.
Qed.

Lemma chars_of_uint_digits d :
  Forall (fun c => is_digit c = true) (chars_of_uint d).
Proof. induction d; simpl; auto. Qed.


Lemma chars_of_uint_numeral d : d <> Nil -> numeral (chars_of_uint d).
Proof.
  intros H. split; [| apply chars_of_uint_digits].
  destruct d; simpl; congruence.
Qed.

Lemma decimal_value_uint d :
  d <> Nil -> decimal_value (chars_of_uint d) = uint_value d 0.
Proof.
  intros H.
  pose proof (read_digits_numeral _ 0 false (chars_of_uint_digits d)) as E.
  rewrite read_digits_uint in E. unfold decimal_value.
  destruct d; try congruence; simpl in E |- *; congruence.
Qed.

Lemma decimal_value_to_uint n :
  decimal_value (chars_of_uint (N.to_uint n)) = Z.of_N n.
Proof.
  rewrite decimal_value_uint by apply to_uint_not_Nil.
  rewrite <- of_uint_value. unfold Z.of_uint.
  pose proof (DecimalN.Unsigned.of_to n) as Hof. unfold N.of_uint in Hof.
  now rewrite Hof.
Qed.

(** Reading back the decimal form of an integer gives the number value of
    that integer. *)
Lemma parseInt_Z_toString z radix :
  radix = 10 \/ radix = 0 -> parseInt (Z_toString z) radix = toNumber z.
Proof.
  intros Hr. unfold Z_toString. destruct z as [| p | p]; cbn [Z.to_int].
  - change Decimal.zero with (N.to_uint 0).
    rewrite (parseInt_numeral _ radix
               (chars_of_uint_numeral _ (to_uint_not_Nil _)) Hr).
    now rewrite decimal_value_to_uint.
  - change (Pos.to_uint p) with (N.to_uint (N.pos p)).
    rewrite (parseInt_numeral _ radix
               (chars_of_uint_numeral _ (to_uint_not_Nil _)) Hr).
    now rewrite decimal_value_to_uint.
  - change (Pos.to_uint p) with (N.to_uint (N.pos p)).
    rewrite (parseInt_minus_numeral _ radix
               (chars_of_uint_numeral _ (to_uint_not_Nil _)) Hr).
    now rewrite decimal_value_to_uint.
Qed.

(** ** The command pattern *)

Lemma plus_stops cls s c k : stops cls s -> repeat1 cls s c k = None.
Proof. destruct s as [| x s]; simpl; [reflexivity | now intros ->]. Qed.

(** The longest run wins when the rest of the pattern accepts after it. *)
Lemma plus_longest cls w rest c k res :
  w <> [] -> Forall (fun x => cls x = true) w -> stops cls rest ->
  k rest c = Some res ->
  repeat1 cls (w ++ rest) c k = Some res.
Proof.
  intros Hne Hw Hrest Hk. induction Hw as [| x w Hx Hw IH]; [congruence |].
  simpl. rewrite Hx. destruct w as [| y w].
  - simpl. now rewrite (plus_stops cls rest c k Hrest).
  - now rewrite IH.
Qed.

(** No way of cutting the run makes the pattern match when the rest of the
    pattern rejects after every part of it. *)
Lemma plus_rejected cls w rest c k :
  Forall (fun x => cls x = true) w -> stops cls rest ->
  (forall w', Forall (fun x => cls x = true) w' -> k (w' ++ rest) c = None) ->
  repeat1 cls (w ++ rest) c k = None.
Proof.
  intros Hw Hrest Hk. induction Hw as [| x w Hx Hw IH].
  - now apply plus_stops.
  - simpl. rewrite Hx, IH. now apply Hk.
Qed.

Lemma space_not_digit c : is_space c = true -> is_digit c = false.
Proof.
  intros H. destruct (is_digit c) eqn:E; [| reflexivity].
  apply digit_not_space in E. congruence.
Qed.

Lemma numeral_stops_space d rest : numeral d -> stops is_space (d ++ rest).
Proof.
  intros [Hne Hd]. destruct d as [| x d]; [congruence |].
  simpl. apply digit_not_space. now inversion Hd.
Qed.

Lemma blank_stops_digit w rest : blank w -> stops is_digit (w ++ rest).
Proof.
  intros [Hne Hw]. destruct w as [| x w]; [congruence |].
  simpl. apply space_not_digit. now inversion Hw.
Qed.

(** A capturing group of digits takes the whole numeral. *)
Lemma run_digits i d rest c k res :
  numeral d -> stops is_digit rest ->
  k rest ((i, d) :: c) = Some res ->
  run (Group i (Plus is_digit)) (d ++ rest) c k = Some res.
Proof.
  intros [Hne Hd] Hrest Hk. cbn [run].
  apply plus_longest; auto.
  rewrite length_app, Nat.add_sub.
  rewrite firstn_app, Nat.sub_diag, firstn_all. cbn [firstn].
  now rewrite app_nil_r.
Qed.

Lemma run_digits_stops i s c k :
  stops is_digit s -> run (Group i (Plus is_digit)) s c k = None.
Proof. intros H. cbn [run]. now apply plus_stops. Qed.

Lemma strip_literal_spells kw s rest :
  spells kw s -> strip_literal (str kw) (s ++ rest) = Some rest.
Proof.
  unfold spells. generalize (str kw). intros l H.
  induction H as [| a b l s Hab H IH]; [reflexivity |].
  simpl. now rewrite Hab, N.eqb_refl.
Qed.

Lemma canonicalize_letter b k :
  (65 <= k <= 90)%N -> canonicalize b = k -> b = k \/ b = (k + 32)%N.
Proof.
  unfold canonicalize. intros Hk.
  destruct ((97 <=? b)%N && (b <=? 122)%N) eqn:E; [| now left].
  apply andb_prop in E as [E1 E2]. apply N.leb_le in E1, E2. lia.
Qed.

(** The first character of a keyword of the pattern is a letter: neither
    white space nor a digit. *)
Lemma letter_stops b k rest :
  (65 <= k <= 90)%N -> canonicalize b = k ->
  stops is_space (b :: rest) /\ stops is_digit (b :: rest).
Proof.
  intros Hk Hb. simpl.
  assert (R : (65 <= b <= 122)%N)
    by (destruct (canonicalize_letter b k Hk Hb); lia).
  split.
  - unfold is_space.
    repeat (apply orb_false_intro); try (apply Z.eqb_neq; lia).
    apply andb_false_iff. left. apply Z.leb_gt. lia.
  - unfold is_digit. apply andb_false_iff. right. apply Z.leb_gt. lia.
Qed.

Lemma space_canonical c : is_space c = true -> canonicalize c = c.
Proof.
  intros H. unfold canonicalize.
  destruct ((97 <=? c)%N && (c <=? 122)%N) eqn:E; [| reflexivity].
  apply andb_prop in E as [E1 E2]. apply N.leb_le in E1, E2.
  assert (is_space c = false); [| congruence].
  unfold is_space.
  repeat (apply orb_false_intro); try (apply Z.eqb_neq; lia).
  apply andb_false_iff. left. apply Z.leb_gt. lia.
Qed.

Lemma space_not_letter c k :
  (65 <= k <= 90)%N -> is_space c = true -> canonicalize c <> k.
Proof.
  intros Hk Hc E. destruct (canonicalize_letter c k Hk E) as [-> | ->].
  - destruct (letter_stops k k [] Hk) as [S _]; [| simpl in S; congruence].
    unfold canonicalize.
    destruct ((97 <=? k)%N && (k <=? 122)%N) eqn:E'; [| reflexivity].
    apply andb_prop in E' as [E1 E2]. apply N.leb_le in E1, E2. lia.
  - destruct (letter_stops (k + 32)%N k [] Hk E) as [S _].
    simpl in S. congruence.
Qed.


Lemma run_field kw i f rest c k res :
  field_ok kw (Some f) -> stops is_space (f_word f ++ f_sep f ++ f_digits f ++ rest) ->
  stops is_digit rest ->
  k rest ((i, f_digits f) :: c) = Some res ->
  run (field_re kw i) (field_text (Some f) ++ rest) c k = Some res.
Proof.
  intros (Hgap & Hword & Hsep & Hdig) Hhead Hrest Hk.
  unfold field_re, field_text. cbn [run].
  rewrite <- !app_assoc.
  apply plus_longest; try apply Hgap; [exact Hhead |].
  rewrite (strip_literal_spells kw _ _ Hword).
  apply plus_longest; try apply Hsep; [now apply numeral_stops_space |].
  now apply (run_digits i).
Qed.


Lemma run_limit_rejected s c k :
  no_number s ->
  run (Cat (Plus is_space) (Group 1 (Plus is_digit))) s c k = None.
Proof.
  intros (w & r & -> & Hw & Hs & Hd). cbn [run].
  apply plus_rejected; auto.
  intros w' Hw'. apply plus_stops.
  destruct w' as [| x w']; [exact Hd |].
  simpl. apply space_not_digit. now inversion Hw'.
Qed.


Lemma run_field_rejected a kw i s c k :
  (65 <= canonicalize a <= 90)%N ->
  no_keyword (canonicalize a) s ->
  run (Cat (Plus is_space)
        (Cat (Lit (a :: kw)) (Cat (Plus is_space) (Group i (Plus is_digit)))))
      s c k = None.
Proof.
  intros Ha (w & r & -> & Hw & Hs & Hr). cbn [run].
  apply plus_rejected; auto.
  intros w' Hw'.
  assert (E : strip_literal (a :: kw) (w' ++ r) = None).
  { destruct w' as [| x w'].
    - destruct r as [| h r]; [reflexivity |]. simpl.
      destruct (N.eqb_spec (canonicalize a) (canonicalize h)); congruence.
    - simpl.
      destruct (N.eqb_spec (canonicalize a) (canonicalize x)) as [E |];
        [| reflexivity].
      exfalso. apply (space_not_letter x (canonicalize a) Ha); auto.
      now inversion Hw'. }
  now rewrite E.
Qed.

Lemma spells_head kw a s :
  spells (String a kw) s ->
  exists h t, s = h :: t /\ canonicalize h = canonicalize (N_of_ascii a).
Proof.
  unfold spells, str. cbn [list_ascii_of_string map].
  intros H. inversion H; subst. eauto.
Qed.

Lemma field_stops_digit kw f rest :
  field_ok kw f -> stops is_digit rest -> stops is_digit (field_text f ++ rest).
Proof.
  destruct f as [f |]; [| now simpl].
  intros (Hgap & _) _. unfold field_text. rewrite <- app_assoc.
  now apply blank_stops_digit.
Qed.

(** A field whose keyword starts with another letter than [k], or no field
    at all, followed by the end of the text. *)
Lemma field_no_keyword a kw k f :
  (65 <= canonicalize (N_of_ascii a) <= 90)%N ->
  canonicalize (N_of_ascii a) <> k ->
  field_ok (String a kw) f -> no_keyword k (field_text f).
Proof.
  intros Ha Hk Hf. destruct f as [f |].
  - destruct Hf as ((_ & Hgap) & Hword & _).
    destruct (spells_head _ _ _ Hword) as (h & t & E & Hh).
    exists (f_gap f), (f_word f ++ f_sep f ++ f_digits f).
    rewrite E. split; [| split; [| split]].
    + unfold field_text. now rewrite E.
    + assumption.
    + apply (letter_stops h _ _ Ha Hh).
    + simpl. congruence.
  - exists [], []. simpl. auto.
Qed.

Lemma field_no_number a kw f rest :
  (65 <= canonicalize (N_of_ascii a) <= 90)%N ->
  field_ok (String a kw) (Some f) -> no_number (field_text (Some f) ++ rest).
Proof.
  intros Ha ((_ & Hgap) & Hword & _).
  destruct (spells_head _ _ _ Hword) as (h & t & E & Hh).
  exists (f_gap f), ((f_word f ++ f_sep f ++ f_digits f) ++ rest).
  unfold field_text. rewrite E, <- !app_assoc.
  split; [| split; [| split]].
  - reflexivity.
  - assumption.
  - apply (letter_stops h _ _ Ha Hh).
  - apply (letter_stops h _ _ Ha Hh).
Qed.

Lemma field_word_stops_space a kw f rest :
  (65 <= canonicalize (N_of_ascii a) <= 90)%N ->
  field_ok (String a kw) (Some f) ->
  stops is_space (f_word f ++ f_sep f ++ f_digits f ++ rest).
Proof.
  intros Ha (_ & Hword & _).
  destruct (spells_head _ _ _ Hword) as (h & t & E & Hh).
  rewrite E. apply (letter_stops h _ _ Ha Hh).
Qed.

(** The pattern from [status_part] on, over the status field. *)
Lemma run_status st c :
  field_ok "status" st ->
  run (Cat status_part Eos) (field_text st) c matched
  = Some (field_captures 3 st ++ c).
Proof.
  intros Hst. destruct st as [f |]; [| reflexivity].
  change (Cat status_part Eos) with (Cat (Opt (field_re "status" 3)) Eos).
  cbn [run].
  rewrite <- (app_nil_r (field_text (Some f))).
  rewrite (run_field "status" 3 f [] c _ ((3%nat, f_digits f) :: c));
    auto; try reflexivity.
  apply (field_word_stops_space "s" "tatus"); [vm_compute; intuition congruence | exact Hst].
Qed.

(** The pattern from [topic_part] on, over the topic and status fields. *)
Lemma run_topic tp st c :
  field_ok "topic" tp -> field_ok "status" st ->
  run (Cat topic_part (Cat status_part Eos))
      (field_text tp ++ field_text st) c matched
  = Some (field_captures 3 st ++ field_captures 2 tp ++ c).
Proof.
  intros Htp Hst.
  change (Cat topic_part (Cat status_part Eos))
    with (Cat (Opt (field_re "topic" 2)) (Cat status_part Eos)).
  cbn [run]. destruct tp as [f |].
  - rewrite (run_field "topic" 2 f (field_text st) c _
               (field_captures 3 st ++ (2%nat, f_digits f) :: c)); auto.
    + apply (field_word_stops_space "t" "opic");
        [vm_compute; intuition congruence | exact Htp].
    + rewrite <- (app_nil_r (field_text st)).
      now apply (field_stops_digit "status").
    + now apply run_status.
  - cbn [field_text app field_captures].
    unfold field_re. change (str "topic") with (116%N :: str "opic").
    rewrite run_field_rejected.
    + now apply run_status.
    + vm_compute; intuition congruence.
    + apply (field_no_keyword "s" "tatus"); auto;
        vm_compute; intuition congruence.
Qed.

Lemma fields_no_number tp st :
  field_ok "topic" tp -> field_ok "status" st ->
  no_number (field_text tp ++ field_text st).
Proof.
  intros Htp Hst. destruct tp as [f |].
  - apply (field_no_number "t" "opic"); [vm_compute; intuition congruence | exact Htp].
  - destruct st as [f |].
    + change (field_text None ++ field_text (Some f))
        with (field_text (Some f)).
      rewrite <- (app_nil_r (field_text (Some f))).
      apply (field_no_number "s" "tatus");
        [vm_compute; intuition congruence | exact Hst].
    + exists [], []. simpl. auto.
Qed.

Lemma fields_stop_digit tp st :
  field_ok "topic" tp -> field_ok "status" st ->
  stops is_digit (field_text tp ++ field_text st).
Proof.
  intros Htp Hst. apply (field_stops_digit "topic"); auto.
  rewrite <- (app_nil_r (field_text st)).
  now apply (field_stops_digit "status").
Qed.

(** On a command of the grammar the pattern matches, and its three groups
    hold exactly the digits of the fields that are present. *)
Lemma match_command c :
  command_ok c ->
  String_match (command_text c) proposals_re
  = Some (field_captures 3 (cmd_status c) ++ field_captures 2 (cmd_topic c)
          ++ limit_captures (cmd_limit c)).
Proof.
  intros (Hword & Hlimit & Htp & Hst).
  unfold String_match, command_text, proposals_re, limit_part.
  change (fun (_ : jsstring) (c : captures) => Some c) with matched.
  cbn [run]. rewrite (strip_literal_spells _ _ _ Hword).
  destruct (cmd_limit c) as [[gap digits] |].
  - destruct Hlimit as [Hgap Hdig].
    cbn [limit_text]. rewrite <- app_assoc.
    rewrite (plus_longest is_space gap _ [] _
               (field_captures 3 (cmd_status c)
                ++ field_captures 2 (cmd_topic c) ++ [(1%nat, digits)]));
      try apply Hgap; auto.
    + now apply numeral_stops_space.
    + apply (run_digits 1 digits
               (field_text (cmd_topic c) ++ field_text (cmd_status c)) []
               (fun s' c' => run (Cat topic_part (Cat status_part Eos))
                                 s' c' matched));
        auto using fields_stop_digit.
      now apply run_topic.
  - cbn [limit_text limit_captures]. rewrite app_nil_l, app_nil_r.
    pose proof (run_limit_rejected _ []
                  (fun s' c' => run (Cat topic_part (Cat status_part Eos))
                                    s' c' matched)
                  (fields_no_number _ _ Htp Hst)) as R.
    cbn [run] in R. rewrite R.
    pose proof (run_topic _ _ [] Htp Hst) as T. cbn [run] in T.
    rewrite app_nil_r in T. exact T.
Qed.

Lemma numeral_cons d : numeral d -> exists x s, d = x :: s.
Proof. intros [Hne _]. destruct d; [congruence | eauto]. Qed.

Lemma group_some c i d :
  capture c i = Some d -> numeral d -> group (Some c) i = Some d.
Proof.
  intros E Hd. unfold group. rewrite E.
  destruct (numeral_cons d Hd) as (x & s & ->). reflexivity.
Qed.

Lemma group_none c i : capture c i = None -> group (Some c) i = None.
Proof. intros E. unfold group. now rewrite E. Qed.

(** The filters and the limit read off a command of the grammar. *)
Lemma parse_command_denoted c :
  command_ok c -> parse_command (command_text c) = denoted c.
Proof.
  intros Hc. unfold parse_command. rewrite (match_command c Hc).
  cbv zeta. destruct Hc as (_ & Hlimit & Htp & Hst).
  unfold denoted.
  destruct (cmd_limit c) as [[gap d1] |], (cmd_topic c) as [ft |],
    (cmd_status c) as [fs |];
    repeat match goal with
      | H : _ /\ _ |- _ => destruct H
      | H : field_ok _ (Some _) |- _ => destruct H as (_ & _ & _ & H)
      end;
    repeat match goal with
      | |- context [group (Some ?cs) ?i] =>
          let v := eval cbv [capture List.app field_captures limit_captures Nat.eqb]
                   in (capture cs i) in
          match v with
          | Some ?d =>
              replace (group (Some cs) i) with (Some d)
                by (symmetry; apply group_some; [reflexivity | assumption])
          | None =>
              replace (group (Some cs) i) with (@None jsstring)
                by (symmetry; apply group_none; reflexivity)
          end
      end;
    cbn [option_map];
    repeat match goal with
      | H : numeral ?d |- _ =>
          rewrite (parseInt_numeral d 10 H (or_introl eq_refl)); clear H
      end;
    reflexivity.
Qed.

(** ** The loop of governanceProvider.get *)

Lemma rejects_passes f code :
  rejects f (Z_toString code) = negb (passes f code).
Proof.
  destruct f as [n |]; [| reflexivity].
  simpl. now rewrite parseInt_Z_toString by auto.
Qed.

(** One turn of the loop: the item is resolved, then pushed if it survives. *)
Lemma loop_cons g tf sf p rest acc :
  loop g tf sf (p :: rest) acc =
  (x <- resolve g p ;;
   loop g tf sf rest (if survives tf sf x then acc ++ [project x] else acc)).
Proof.
  cbn [loop]. unfold resolve.
  destruct (first (did.id p)) as [pid | e]; [| reflexivity].
  destruct (first (did.proposal p)) as [prop | e]; [| reflexivity].
  cbn [bind].
  destruct (fetchProposalInfo g (did.ProposalId.id pid)) as [r | e];
    [| reflexivity].
  cbn [bind]. destruct (first r) as [pInfo | e]; [| reflexivity].
  cbn [bind]. rewrite !rejects_passes. unfold survives. cbn [r_detail].
  destruct (passes tf (did.topic pInfo)); [| reflexivity].
  destruct (passes sf (did.status pInfo)); reflexivity.
Qed.

(** When every listed item resolves, the loop ends with one record per
    surviving item, in the order of the list. *)
Lemma loop_resolved g tf sf ps xs acc :
  Forall2 (fun p x => resolve g p = Ok x) ps xs ->
  loop g tf sf ps acc = Ok (acc ++ map project (filter (survives tf sf) xs)).
Proof.
  intros H. revert acc.
  induction H as [| p x ps xs Hp H IH]; intros acc.
  - simpl. now rewrite app_nil_r.
  - rewrite loop_cons, Hp. cbn [bind filter]. rewrite IH.
    destruct (survives tf sf x); [| reflexivity].
    cbn [map]. now rewrite <- app_assoc.
Qed.

(** The loop ends normally only when every listed item resolves. *)
Lemma loop_ok g tf sf ps acc out :
  loop g tf sf ps acc = Ok out ->
  exists xs, Forall2 (fun p x => resolve g p = Ok x) ps xs
             /\ out = acc ++ map project (filter (survives tf sf) xs).
Proof.
  revert acc. induction ps as [| p ps IH]; intros acc H.
  - exists []. split; [constructor |]. simpl in *.
    rewrite app_nil_r. congruence.
  - rewrite loop_cons in H. destruct (resolve g p) as [x | e] eqn:Hp;
      [| discriminate].
    cbn [bind] in H. apply IH in H as (xs & Hxs & ->).
    exists (x :: xs). split; [now constructor |].
    cbn [filter]. destruct (survives tf sf x); [| reflexivity].
    cbn [map]. now rewrite <- app_assoc.
Qed.

Lemma get_unfold g text :
  get g text =
  (response <- list_proposals g (request_of text) ;;
   loop g (q_topicFilter (parse_command text))
        (q_statusFilter (parse_command text))
        (did.proposal_info response) []).
Proof. reflexivity. Qed.

Lemma get_ok g text out :
  get g text = Ok out ->
  exists response xs,
    list_proposals g (request_of text) = Ok response
    /\ Forall2 (fun p x => resolve g p = Ok x) (did.proposal_info response) xs
    /\ out = map project
               (filter (survives (q_topicFilter (parse_command text))
                                 (q_statusFilter (parse_command text))) xs).
Proof.
  rewrite get_unfold. intros H.
  destruct (list_proposals g (request_of text)) as [response | e];
    [| discriminate].
  cbn [bind] in H. apply loop_ok in H as (xs & Hxs & ->).
  exists response, xs. auto.
Qed.

Lemma get_resolved g text response xs :
  list_proposals g (request_of text) = Ok response ->
  Forall2 (fun p x => resolve g p = Ok x) (did.proposal_info response) xs ->
  get g text =
  Ok (map project
        (filter (survives (q_topicFilter (parse_command text))
                          (q_statusFilter (parse_command text))) xs)).
Proof.
  intros Hl Hxs. rewrite get_unfold, Hl. cbn [bind].
  now rewrite (loop_resolved _ _ _ _ xs).
Qed.

(** ** The enum registries *)

Lemma registered_topic_codes : registered_codes Topic_literal = topic_codes.
Proof. reflexivity. Qed.

Lemma registered_status_codes :
  registered_codes ProposalStatus_literal = status_codes.
Proof. reflexivity. Qed.

(** C8. For every code registered in [Topic] and every code registered in
    [ProposalStatus], the reverse mapping gives a name under the code, and
    that name gives the code back. *)
Theorem enum_round_trip (c : Z) :
  (In c (registered_codes Topic_literal) ->
   exists name, obj_get Topic (Z_toString c) = VStr name
                /\ obj_get Topic name = VNum (Num c)
                /\ code_name_code Topic c = VNum (Num c))
  /\ (In c (registered_codes ProposalStatus_literal) ->
      exists name, obj_get ProposalStatus (Z_toString c) = VStr name
                   /\ obj_get ProposalStatus name = VNum (Num c)
                   /\ code_name_code ProposalStatus c = VNum (Num c)).
Proof.
  split; intros H.
  - rewrite registered_topic_codes in H. unfold topic_codes in H.
    repeat (destruct H as [<- | H];
            [eexists; split; [vm_compute; reflexivity |];
             split; vm_compute; reflexivity |]).
    destruct H.
  - rewrite registered_status_codes in H. unfold status_codes in H.
    repeat (destruct H as [<- | H];
            [eexists; split; [vm_compute; reflexivity |];
             split; vm_compute; reflexivity |]).
    destruct H.
Qed.

Lemma enum_round_trip_witness :
  (exists name, obj_get Topic (Z_toString 13) = VStr name
                /\ obj_get Topic name = VNum (Num 13)
                /\ code_name_code Topic 13 = VNum (Num 13))
  /\ (exists name, obj_get ProposalStatus (Z_toString 4) = VStr name
                   /\ obj_get ProposalStatus name = VNum (Num 4)
                   /\ code_name_code ProposalStatus 4 = VNum (Num 4)).
Proof.
  split.
  - apply (proj1 (enum_round_trip 13)). vm_compute. tauto.
  - apply (proj2 (enum_round_trip 4)). vm_compute. tauto.
Defined.

(** ** The request of fetchProposals *)

(** The keys of [Topic] as the loop of [fetchProposals] reads them: the
    registered codes in ascending order, then the names, which are not
    numbers. *)
Lemma Topic_keys :
  map (fun e => parseInt (fst e) 0) (Object_entries Topic)
  = map Num topic_codes ++ repeat NaN 18.
Proof. vm_compute. reflexivity. Qed.

Lemma exclude_topic_fold tf keys acc :
  fold_left
    (fun exclude_topic (e : jsstring * value) =>
       let topic := parseInt (fst e) 0 in
       if negb (isNaN topic) then
         if negb (num_eqb topic tf) then exclude_topic ++ [topic]
         else exclude_topic
       else exclude_topic) keys acc
  = acc ++ filter (fun n => negb (isNaN n) && negb (num_eqb n tf))
                  (map (fun e => parseInt (fst e) 0) keys).
Proof.
  revert acc. induction keys as [| e keys IH]; intros acc.
  - simpl. now rewrite app_nil_r.
  - cbn [fold_left map filter]. cbv zeta. rewrite IH.
    destruct (isNaN (parseInt (fst e) 0)); [reflexivity |].
    cbn [negb andb].
    destruct (num_eqb (parseInt (fst e) 0) tf); [reflexivity |].
    cbn [negb]. now rewrite <- app_assoc.
Qed.

Lemma filter_map_swap {A B} (f : B -> bool) (g : A -> B) l :
  filter f (map g l) = map g (filter (fun x => f (g x)) l).
Proof.
  induction l as [| a l IH]; [reflexivity |].
  simpl. rewrite IH. now destruct (f (g a)).
Qed.

Lemma exclude_topic_of_filter t :
  exclude_topic_of (Some t)
  = map Num (filter (fun c => negb (num_eqb (Num c) t)) topic_codes).
Proof.
  unfold exclude_topic_of. rewrite exclude_topic_fold, Topic_keys.
  rewrite filter_app, filter_map_swap.
  change (filter _ (repeat NaN 18)) with (@nil number).
  now rewrite app_nil_r.
Qed.

Lemma ToInt32_exact z : - 2 ^ 31 <= z < 2 ^ 31 -> ToInt32 (Num z) = z.
Proof.
  intros H. unfold ToInt32. rewrite Z.mod_small; lia.
Qed.

(** C1, as the code has it. The request of [fetchProposals] excludes every
    registered topic code (0 to 10 and 12 to 18) except the topic filter
    when there is one, and excludes nothing otherwise; it includes the one
    status of the status filter, converted to a signed 32-bit integer as
    the [Int32Array] holding it does, and includes nothing when there is no
    status filter. A status filter below 2^31 is included unchanged. *)
Theorem fetchProposals_filters (limit : number)
  (statusFilter topicFilter : option number) :
  registered_codes Topic_literal
  = [0; 1; 2; 3; 4; 5; 6; 7; 8; 9; 10; 12; 13; 14; 15; 16; 17; 18]
  /\ did.exclude_topic (request limit statusFilter topicFilter)
     = match topicFilter with
       | Some t =>
           map Num (filter (fun c => negb (num_eqb (Num c) t))
                           (registered_codes Topic_literal))
       | None => []
       end
  /\ did.include_status (request limit statusFilter topicFilter)
     = match statusFilter with
       | Some s => [ToInt32 s]
       | None => []
       end
  /\ (forall s, statusFilter = Some (Num s) -> 0 <= s < 2 ^ 31 ->
      did.include_status (request limit statusFilter topicFilter) = [s]).
Proof.
  split; [reflexivity |]. split; [| split].
  - cbn [request did.exclude_topic]. destruct topicFilter as [t |];
      [| reflexivity].
    now rewrite exclude_topic_of_filter, registered_topic_codes.
  - reflexivity.
  - intros s -> Hs. cbn [request did.include_status].
    rewrite ToInt32_exact by lia. reflexivity.
Qed.

Lemma fetchProposals_filters_witness :
  did.include_status (request (Num 20) (Some (Num 4)) (Some (Num 17))) = [4].
Proof.
  apply (proj2 (proj2 (proj2
           (fetchProposals_filters (Num 20) (Some (Num 4)) (Some (Num 17)))))).
  - reflexivity.
  - lia.
Defined.

(** C1, as stated, fails: the status filter parsed from
    [!proposals 10 status 4294967297] is 4294967297, and the request
    includes status 1. *)
Lemma include_status_wraps :
  q_statusFilter (parse_command (str "!proposals 10 status 4294967297"))
  = Some (Num 4294967297)
  /\ did.include_status (request_of (str "!proposals 10 status 4294967297"))
     = [1]
  /\ map Num
       (did.include_status (request_of (str "!proposals 10 status 4294967297")))
     <> [Num 4294967297].
Proof.
  split; [vm_compute; reflexivity |].
  split; [vm_compute; reflexivity |].
  vm_compute. discriminate.
Qed.

(** C10. Whatever the text, the request [governanceProvider.get] sends has
    no reward status, no large-field option, no cursor and no
    manage-neuron option; its other three fields are the limit and the two
    filter lists. *)
Theorem request_fixed_fields (governance : Governance) (text : jsstring) :
  did.include_reward_status (request_of text) = []
  /\ did.omit_large_fields (request_of text) = None
  /\ did.before_proposal (request_of text) = None
  /\ did.include_all_manage_neuron_proposals (request_of text) = None
  /\ did.limit (request_of text) = q_limit (parse_command text)
  /\ fetchProposals governance (q_limit (parse_command text))
       (q_statusFilter (parse_command text))
       (q_topicFilter (parse_command text))
     = list_proposals governance (request_of text)
  /\ forall limit statusFilter topicFilter,
       request limit statusFilter topicFilter
       = {| did.include_reward_status := [];
            did.exclude_topic :=
              did.exclude_topic (request limit statusFilter topicFilter);
            did.include_status :=
              did.include_status (request limit statusFilter topicFilter);
            did.omit_large_fields := None;
            did.before_proposal := None;
            did.include_all_manage_neuron_proposals := None;
            did.limit := limit |}.
Proof. repeat split. Qed.

(** ** The command parser *)

Lemma decimal_value_nonneg d : numeral d -> 0 <= decimal_value d.
Proof.
  intros [_ Hd]. unfold decimal_value.
  assert (G : forall acc, 0 <= acc ->
            0 <= fold_left (fun a c => 10 * a + (Z.of_N c - 48)) d acc).
  { induction Hd as [| c d Hc Hd IH]; intros acc Hacc; [exact Hacc |].
    cbn [fold_left]. apply IH. apply is_digit_range in Hc. lia. }
  apply G. lia.
Qed.

Lemma toNumber_numeral d :
  numeral d -> decimal_value d < 2 ^ 53 ->
  toNumber (decimal_value d) = Num (decimal_value d).
Proof.
  intros Hd Hs. apply toNumber_exact.
  pose proof (decimal_value_nonneg d Hd). lia.
Qed.

Lemma small_denoted c :
  command_ok c -> small_numerals c -> denoted c = literal c.
Proof.
  intros (_ & Hlimit & Htp & Hst) (Hl & Ht & Hs). unfold denoted, literal.
  destruct (cmd_limit c) as [[gap d1] |], (cmd_topic c) as [ft |],
    (cmd_status c) as [fs |]; cbn [option_map];
    repeat match goal with
      | H : _ /\ _ |- _ => destruct H
      | H : field_ok _ (Some _) |- _ => destruct H as (_ & _ & _ & H)
      end;
    repeat match goal with
      | H : numeral ?d |- _ => rewrite (toNumber_numeral d H) by assumption;
                               clear H
      end;
    reflexivity.
Qed.

(** C3, as the code has it. For every command of the grammar
    [!proposals [<limit>] [topic <id>] [status <id>]] (keywords in any letter
    case, fields separated by white space, in this order) whose numerals are
    below 2^53, the parsed limit, topic and status are the values of the
    digits supplied; a missing limit is 10 and a missing topic or status
    leaves the filter unset; the limit, 0 included, is the [limit] field of
    the request unchanged. *)
Theorem parse_command_literal (c : command) :
  command_ok c -> small_numerals c ->
  parse_command (command_text c) = literal c
  /\ did.limit (request_of (command_text c)) = q_limit (literal c).
Proof.
  intros Hc Hs.
  assert (E : parse_command (command_text c) = literal c)
    by now rewrite parse_command_denoted, small_denoted.
  split; [exact E |].
  unfold request_of. cbn [request did.limit]. now rewrite E.
Qed.

Lemma parse_command_literal_witness :
  parse_command (str "!Proposals 0 topic 17  STATUS 4")
  = {| q_limit := Num 0;
       q_topicFilter := Some (Num 17);
       q_statusFilter := Some (Num 4) |}
  /\ did.limit (request_of (str "!Proposals 0 topic 17  STATUS 4")) = Num 0.
Proof.
  apply (parse_command_literal zero_limit).
  - unfold command_ok, zero_limit, field_ok, blank, numeral, spells.
    cbn [cmd_word cmd_limit cmd_topic cmd_status f_gap f_word f_sep f_digits].
    repeat split; try discriminate; vm_compute; repeat constructor.
  - vm_compute. repeat split; reflexivity.
Defined.

Lemma large_limit_ok : command_ok large_limit.
Proof.
  unfold command_ok, large_limit, field_ok, blank, numeral, spells.
  cbn [cmd_word cmd_limit cmd_topic cmd_status].
  repeat split; try discriminate; vm_compute; repeat constructor.
Qed.

(** C3, as stated, fails: [!proposals 9007199254740993] is a command of the
    grammar, and its limit is parsed to 9007199254740992. *)
Lemma large_limit_rounded :
  command_ok large_limit
  /\ command_text large_limit = str "!proposals 9007199254740993"
  /\ q_limit (literal large_limit) = Num 9007199254740993
  /\ q_limit (parse_command (command_text large_limit))
     = Num 9007199254740992
  /\ parse_command (command_text large_limit) <> literal large_limit.
Proof.
  split; [exact large_limit_ok |].
  split; [reflexivity |].
  split; [vm_compute; reflexivity |].
  split; [vm_compute; reflexivity |].
  vm_compute. discriminate.
Qed.

(** C6. A text the pattern does not match (a status written before a topic,
    or any text that is not a command) is not rejected: it is handled as
    [!proposals] is. The limit is 10 and no filter is set; the list call is
    made, with the request for ten proposals and no filter; what it answers
    is processed without any filter, so that every listed proposal is
    returned when all resolve; request and result are those of
    [!proposals]. *)
Theorem unmatched_text_defaults (governance : Governance) (text : jsstring) :
  String_match text proposals_re = None ->
  parse_command text
  = {| q_limit := Num 10; q_topicFilter := None; q_statusFilter := None |}
  /\ request_of text = request_of (str "!proposals")
  /\ get governance text = get governance (str "!proposals")
  /\ request_of text = default_request
  /\ get governance text
     = (response <- list_proposals governance default_request ;;
        loop governance None None (did.proposal_info response) [])
  /\ (forall e, list_proposals governance default_request = Err e ->
      get governance text = Err e)
  /\ (forall response xs,
        list_proposals governance default_request = Ok response ->
        Forall2 (fun p x => resolve governance p = Ok x)
                (did.proposal_info response) xs ->
        get governance text = Ok (map project xs)).
Proof.
  intros H.
  assert (E : parse_command text = parse_command (str "!proposals"))
    by (unfold parse_command; rewrite H; reflexivity).
  assert (R : request_of text = default_request)
    by (unfold request_of; rewrite E; reflexivity).
  assert (G : get governance text
              = (response <- list_proposals governance default_request ;;
                 loop governance None None (did.proposal_info response) []))
    by (rewrite get_unfold, R, E; reflexivity).
  split; [rewrite E; reflexivity |].
  split; [unfold request_of; now rewrite E |].
  split; [unfold get; now rewrite E |].
  split; [exact R |]. split; [exact G |]. split.
  - intros e He. rewrite G, He. reflexivity.
  - intros response xs Hl Hxs. rewrite G, Hl. cbn [bind].
    rewrite (loop_resolved _ _ _ _ xs [] Hxs). cbn [List.app]. do 2 f_equal.
    clear. induction xs as [| x xs IH]; [reflexivity |].
    cbn [filter survives passes andb]. now rewrite IH.
Qed.

Lemma unmatched_text_defaults_witness :
  (String_match (str "!proposals 5 status 1 topic 2") proposals_re = None
   /\ String_match (str "what is new?") proposals_re = None)
  /\ get sample (str "!proposals 5 status 1 topic 2")
     = get sample (str "!proposals")
  /\ get sample (str "what is new?") = get sample (str "!proposals")
  /\ request_of (str "!proposals 5 status 1 topic 2") = default_request
  /\ get sample_default_only (str "!proposals 5 status 1 topic 2")
     = Ok (map project sample_resolved)
  /\ get sample_default_only (str "what is new?")
     = Ok (map project sample_resolved).
Proof.
  split; [split; reflexivity |]. split; [| split; [| split; [| split]]].
  - apply (unmatched_text_defaults sample (str "!proposals 5 status 1 topic 2")).
    reflexivity.
  - apply (unmatched_text_defaults sample (str "what is new?")).
    reflexivity.
  - apply (unmatched_text_defaults sample (str "!proposals 5 status 1 topic 2")).
    reflexivity.
  - apply (proj2 (proj2 (proj2 (proj2 (proj2 (proj2
             (unmatched_text_defaults sample_default_only
                (str "!proposals 5 status 1 topic 2") eq_refl))))))
           {| did.proposal_info := sample_list |} sample_resolved).
    + reflexivity.
    + repeat constructor.
  - apply (proj2 (proj2 (proj2 (proj2 (proj2 (proj2
             (unmatched_text_defaults sample_default_only
                (str "what is new?") eq_refl))))))
           {| did.proposal_info := sample_list |} sample_resolved).
    + reflexivity.
    + repeat constructor.
Defined.

(** The ledger of the witness does tell requests apart: a command with another
    limit, or with a filter, is rejected by it. *)
Example sample_default_only_rejects :
  get sample_default_only (str "!proposals 5")
  = Err (Rejected (str "unexpected request"))
  /\ get sample_default_only (str "!proposals 10 topic 17")
     = Err (Rejected (str "unexpected request"))
  /\ get sample_default_only (str "!proposals")
     = Ok (map project sample_resolved).
Proof. vm_compute. repeat split. Qed.

(** ** The records of governanceProvider.get *)

Lemma Forall2_In_left {A B} (R : A -> B -> Prop) l1 l2 a :
  Forall2 R l1 l2 -> In a l1 -> exists b, In b l2 /\ R a b.
Proof.
  induction 1 as [| x y l1 l2 Hxy H IH]; intros Ha; [destruct Ha |].
  destruct Ha as [<- | Ha].
  - exists y. simpl. auto.
  - destruct (IH Ha) as (b & Hb & Hab). exists b. simpl. auto.
Qed.

Lemma Forall2_In_right {A B} (R : A -> B -> Prop) l1 l2 b :
  Forall2 R l1 l2 -> In b l2 -> exists a, In a l1 /\ R a b.
Proof.
  induction 1 as [| x y l1 l2 Hxy H IH]; intros Hb; [destruct Hb |].
  destruct Hb as [<- | Hb].
  - exists x. simpl. auto.
  - destruct (IH Hb) as (a & Ha & Hab). exists a. simpl. auto.
Qed.

Lemma passes_code f z :
  passes f z = true ->
  match f with
  | Some n => toNumber z = n /\ code_of (VStr (Z_toString z)) = n
  | None => True
  end.
Proof.
  destruct f as [n |]; [| trivial]. simpl. intros H.
  apply num_eqb_eq in H. rewrite parseInt_Z_toString by auto. auto.
Qed.

(** Every record of a result comes from a listed proposal that resolved and
    survived. *)
Lemma get_record g text out r :
  get g text = Ok out -> In r out ->
  exists response p x,
    list_proposals g (request_of text) = Ok response
    /\ In p (did.proposal_info response)
    /\ resolve g p = Ok x
    /\ survives (q_topicFilter (parse_command text))
                (q_statusFilter (parse_command text)) x = true
    /\ r = project x.
Proof.
  intros Hget Hr.
  destruct (get_ok g text out Hget) as (response & xs & Hl & Hxs & ->).
  apply in_map_iff in Hr as (x & <- & Hx).
  apply filter_In in Hx as [Hx Hsurv].
  destruct (Forall2_In_right _ _ _ x Hxs Hx) as (p & Hp & Hres).
  exists response, p, x. auto.
Qed.

(** C2. Every record [governanceProvider.get] returns satisfies both
    filters at once: it comes from a listed proposal whose resolved detail
    has the topic code of the topic filter, if there is one, and the status
    code of the status filter, if there is one, and the codes read back
    from the record's [topic] and [status] are those of the filters. *)
Theorem emitted_satisfy_filters (governance : Governance) (text : jsstring)
  (out : list Summary.t) (r : Summary.t) :
  get governance text = Ok out -> In r out ->
  exists response p x,
    list_proposals governance (request_of text) = Ok response
    /\ In p (did.proposal_info response)
    /\ resolve governance p = Ok x
    /\ r = project x
    /\ match q_topicFilter (parse_command text) with
       | Some t => toNumber (did.topic (r_detail x)) = t
                   /\ code_of (Summary.topic r) = t
       | None => True
       end
    /\ match q_statusFilter (parse_command text) with
       | Some s => toNumber (did.status (r_detail x)) = s
                   /\ code_of (Summary.status r) = s
       | None => True
       end.
Proof.
  intros Hget Hr.
  destruct (get_record _ _ _ _ Hget Hr)
    as (response & p & x & Hl & Hp & Hres & Hsurv & ->).
  exists response, p, x. repeat (split; [assumption || reflexivity |]).
  unfold survives in Hsurv. apply andb_prop in Hsurv as [Ht Hs].
  split; [exact (passes_code _ _ Ht) | exact (passes_code _ _ Hs)].
Qed.

Lemma sample_run :
  get sample sample_text = Ok (map project (firstn 2 sample_resolved)).
Proof. vm_compute. reflexivity. Qed.

Lemma emitted_satisfy_filters_witness :
  exists response p x,
    list_proposals sample (request_of sample_text) = Ok response
    /\ In p (did.proposal_info response)
    /\ resolve sample p = Ok x
    /\ project sample_untitled = project x
    /\ match q_topicFilter (parse_command sample_text) with
       | Some t => toNumber (did.topic (r_detail x)) = t
                   /\ code_of (Summary.topic (project sample_untitled)) = t
       | None => True
       end
    /\ match q_statusFilter (parse_command sample_text) with
       | Some s => toNumber (did.status (r_detail x)) = s
                   /\ code_of (Summary.status (project sample_untitled)) = s
       | None => True
       end.
Proof.
  apply (emitted_satisfy_filters sample sample_text
           (map project (firstn 2 sample_resolved))).
  - vm_compute. reflexivity.
  - simpl. auto.
Defined.

(** C7. When the list call answers and every listed proposal resolves, the
    result holds exactly one record for each item that survives the
    filters, in the order of the list response. *)
Theorem output_order (governance : Governance) (text : jsstring)
  (response : did.ListProposalInfoResponse) (xs : list resolved) :
  list_proposals governance (request_of text) = Ok response ->
  Forall2 (fun p x => resolve governance p = Ok x)
          (did.proposal_info response) xs ->
  get governance text
  = Ok (map project
          (filter (survives (q_topicFilter (parse_command text))
                            (q_statusFilter (parse_command text))) xs)).
Proof. apply get_resolved. Qed.

Lemma output_order_witness :
  get sample sample_text
  = Ok (map project
          (filter (survives (q_topicFilter (parse_command sample_text))
                            (q_statusFilter (parse_command sample_text)))
                  sample_resolved)).
Proof.
  apply (output_order sample sample_text {| did.proposal_info := sample_list |}).
  - reflexivity.
  - repeat constructor.
Defined.

(** When the detail of a listed proposal comes back empty, the query fails
    as a whole: no record is returned, for that proposal or for any other
    of the list. *)
Theorem empty_detail_aborts (governance : Governance) (text : jsstring)
  (response : did.ListProposalInfoResponse) (p : did.ProposalInfo)
  (pid : did.ProposalId.t) :
  list_proposals governance (request_of text) = Ok response ->
  In p (did.proposal_info response) ->
  did.id p = Some pid ->
  get_proposal_info governance (did.ProposalId.id pid) = Ok None ->
  exists e, get governance text = Err e.
Proof.
  intros Hl Hp Hid Hinfo.
  destruct (get governance text) as [out | e] eqn:Hget; [| eauto].
  exfalso.
  destruct (get_ok _ _ _ Hget) as (response' & xs & Hl' & Hxs & _).
  rewrite Hl in Hl'. injection Hl' as <-.
  destruct (Forall2_In_left _ _ _ p Hxs Hp) as (x & _ & Hres).
  unfold resolve, fetchProposalInfo in Hres. rewrite Hid in Hres.
  cbn [first bind] in Hres.
  destruct (did.proposal p); cbn [bind] in Hres; [| discriminate].
  rewrite Hinfo in Hres. discriminate.
Qed.

Lemma empty_detail_aborts_witness :
  exists e, get sample_missing (str "!proposals") = Err e.
Proof.
  apply (empty_detail_aborts sample_missing (str "!proposals")
           {| did.proposal_info :=
                [ listed 101 (Some (str "Upgrade the registry"))
                         (Some (str "Motion text"));
                  listed 104 (Some (str "Lost")) (Some (str "No detail"));
                  listed 102 None None ] |}
           (listed 104 (Some (str "Lost")) (Some (str "No detail")))
           {| did.ProposalId.id := 104 |}).
  - reflexivity.
  - simpl. auto.
  - reflexivity.
  - reflexivity.
Defined.

(** C4. The code does not skip a proposal whose detail comes back empty. A
    ledger lists proposal 104 between 101 and 102 and holds no detail for
    it: [fetchProposalInfo] answers with the empty option, which its return
    type provides for, and the loop reads the topic of the missing detail
    without a test. The query is rejected with a [TypeError]; skipping 104
    would have given the records of 101 and 102, which is what the query
    returns on the same ledger when 104 is not listed. *)
Lemma empty_detail_not_skipped :
  get_proposal_info sample_missing 104 = Ok None
  /\ get sample_missing (str "!proposals") = Err TypeError
  /\ get sample_without (str "!proposals")
     = Ok (map project (firstn 2 sample_resolved))
  /\ get sample_missing (str "!proposals")
     <> get sample_without (str "!proposals").
Proof.
  split; [reflexivity |].
  split; [vm_compute; reflexivity |].
  split; [vm_compute; reflexivity |].
  vm_compute. discriminate.
Qed.

(** C5, as the code has it. Every record returned has the six fields [id],
    [title], [summary], [topic], [status] and [timestamp]; [id] is the
    decimal form of the listed proposal's identifier, [summary], [topic] and
    [status] are strings, [title] is the listed title when there is one, and
    [timestamp] is the 64-bit integer of the resolved detail, passed on as it
    is and not as a string. *)
Theorem record_shape (governance : Governance) (text : jsstring)
  (out : list Summary.t) (r : Summary.t) :
  get governance text = Ok out -> In r out ->
  exists response p x,
    list_proposals governance (request_of text) = Ok response
    /\ In p (did.proposal_info response)
    /\ resolve governance p = Ok x
    /\ did.id p = Some {| did.ProposalId.id := r_id x |}
    /\ Summary.id r = VStr (Z_toString (r_id x))
    /\ Summary.timestamp r
       = VBigInt (did.proposal_timestamp_seconds (r_detail x))
    /\ is_string (Summary.timestamp r) = false
    /\ is_string (Summary.id r) = true
    /\ is_string (Summary.summary r) = true
    /\ is_string (Summary.topic r) = true
    /\ is_string (Summary.status r) = true
    /\ match did.title (r_proposal x) with
       | Some s => Summary.title r = VStr s
       | None => True
       end.
Proof.
  intros Hget Hr.
  destruct (get_record _ _ _ _ Hget Hr)
    as (response & p & x & Hl & Hp & Hres & _ & ->).
  exists response, p, x. repeat (split; [assumption || reflexivity |]).
  split.
  - unfold resolve in Hres.
    destruct (did.id p) as [[i] |]; [| discriminate]. cbn [first bind] in Hres.
    destruct (did.proposal p); [| discriminate]. cbn [bind] in Hres.
    destruct (fetchProposalInfo governance _) as [[d |] | e];
      try discriminate.
    cbn [bind first] in Hres. injection Hres as <-. reflexivity.
  - repeat (split; [reflexivity |]).
    cbn [project Summary.title]. now destruct (did.title (r_proposal x)).
Qed.

Lemma record_shape_witness :
  exists response p x,
    list_proposals sample (request_of sample_text) = Ok response
    /\ In p (did.proposal_info response)
    /\ resolve sample p = Ok x
    /\ did.id p = Some {| did.ProposalId.id := r_id x |}
    /\ Summary.id (project sample_untitled) = VStr (Z_toString (r_id x))
    /\ Summary.timestamp (project sample_untitled)
       = VBigInt (did.proposal_timestamp_seconds (r_detail x))
    /\ is_string (Summary.timestamp (project sample_untitled)) = false
    /\ is_string (Summary.id (project sample_untitled)) = true
    /\ is_string (Summary.summary (project sample_untitled)) = true
    /\ is_string (Summary.topic (project sample_untitled)) = true
    /\ is_string (Summary.status (project sample_untitled)) = true
    /\ match did.title (r_proposal x) with
       | Some s => Summary.title (project sample_untitled) = VStr s
       | None => True
       end.
Proof.
  apply (record_shape sample sample_text
           (map project (firstn 2 sample_resolved))).
  - vm_compute. reflexivity.
  - simpl. auto.
Defined.

(** C5, as stated, fails: the second record of the sample query carries its
    timestamp as the integer 1700000600, which is not a string. *)
Lemma timestamp_not_stringified :
  get sample sample_text = Ok (map project (firstn 2 sample_resolved))
  /\ In (project sample_untitled) (map project (firstn 2 sample_resolved))
  /\ Summary.timestamp (project sample_untitled) = VBigInt 1700000600
  /\ is_string (Summary.timestamp (project sample_untitled)) <> true.
Proof.
  split; [exact sample_run |].
  split; [simpl; auto |].
  split; [reflexivity |].
  simpl. discriminate.
Qed.

(** C9. A listed proposal without a title is returned with its title left
    undefined, and one without a summary is returned with the empty string
    as its summary; in both cases the record is in the result whenever the
    proposal resolves and survives the filters. *)
Theorem absent_text_emitted (governance : Governance) (text : jsstring)
  (response : did.ListProposalInfoResponse) (xs : list resolved)
  (x : resolved) :
  list_proposals governance (request_of text) = Ok response ->
  Forall2 (fun p x => resolve governance p = Ok x)
          (did.proposal_info response) xs ->
  In x xs ->
  survives (q_topicFilter (parse_command text))
           (q_statusFilter (parse_command text)) x = true ->
  exists out,
    get governance text = Ok out
    /\ In (project x) out
    /\ Summary.title (project x)
       = match did.title (r_proposal x) with
         | Some s => VStr s
         | None => VUndefined
         end
    /\ Summary.summary (project x)
       = match did.summary (r_proposal x) with
         | Some s => VStr s
         | None => VStr []
         end.
Proof.
  intros Hl Hxs Hx Hsurv.
  eexists. split; [exact (get_resolved _ _ _ _ Hl Hxs) |].
  split.
  - apply in_map. apply filter_In. auto.
  - cbn [project Summary.title Summary.summary]. split.
    + now destruct (did.title (r_proposal x)).
    + now destruct (did.summary (r_proposal x)) as [[| c s] |].
Qed.

Lemma absent_text_emitted_witness :
  exists out,
    get sample sample_text = Ok out
    /\ In (project sample_untitled) out
    /\ Summary.title (project sample_untitled)
       = match did.title (r_proposal sample_untitled) with
         | Some s => VStr s
         | None => VUndefined
         end
    /\ Summary.summary (project sample_untitled)
       = match did.summary (r_proposal sample_untitled) with
         | Some s => VStr s
         | None => VStr []
         end.
Proof.
  apply (absent_text_emitted sample sample_text
           {| did.proposal_info := sample_list |} sample_resolved).
  - reflexivity.
  - repeat constructor.
  - simpl. auto.
  - vm_compute. reflexivity.
Defined.

(** ** The earlier provider *)

Lemma starter_loop_cons g tf sf p rest acc :
  starter.loop g tf sf (p :: rest) acc =
  (x <- resolve g p ;;
   starter.loop g tf sf rest
     (if survives tf sf x then acc ++ starter_lines x else acc)).
Proof.
  cbn [starter.loop]. unfold resolve.
  destruct (first (did.id p)) as [pid | e]; [| reflexivity].
  destruct (first (did.proposal p)) as [prop | e]; [| reflexivity].
  cbn [bind].
  destruct (fetchProposalInfo g (did.ProposalId.id pid)) as [r | e];
    [| reflexivity].
  cbn [bind]. destruct (first r) as [pInfo | e]; [| reflexivity].
  cbn [bind]. rewrite !rejects_passes. unfold survives. cbn [r_detail].
  destruct (passes tf (did.topic pInfo)); [| reflexivity].
  destruct (passes sf (did.status pInfo)); reflexivity.
Qed.

(** The earlier provider applies the same two tests to the resolved detail,
    and pushes four lines for each surviving item, in the order of the
    list; an absent summary is shown as [No summary provided]. *)
Lemma starter_get_resolved g text response xs :
  list_proposals g
    (starter.request (q_limit (parse_command text))
                     (q_statusFilter (parse_command text))) = Ok response ->
  Forall2 (fun p x => resolve g p = Ok x) (did.proposal_info response) xs ->
  starter.get g text =
  Ok (flat_map starter_lines
        (filter (survives (q_topicFilter (parse_command text))
                          (q_statusFilter (parse_command text))) xs)).
Proof.
  intros Hl Hxs. unfold starter.get, starter.fetchProposals.
  cbv zeta. rewrite Hl. cbn [bind].
  generalize (q_topicFilter (parse_command text)) as tf.
  generalize (q_statusFilter (parse_command text)) as sf. intros sf tf.
  change (flat_map starter_lines (filter (survives tf sf) xs))
    with ([] ++ flat_map starter_lines (filter (survives tf sf) xs)).
  generalize (@nil jsstring) as acc.
  induction Hxs as [| p x ps xs' Hp H IH]; intros acc.
  - simpl. now rewrite app_nil_r.
  - rewrite starter_loop_cons, Hp. cbn [bind filter]. rewrite IH.
    destruct (survives tf sf x); [| reflexivity].
    cbn [flat_map]. now rewrite <- app_assoc.
Qed.

Lemma starter_summary_placeholder x :
  did.summary (r_proposal x) = None ->
  nth 3 (starter_lines x) [] = str "Summary: No summary provided".
Proof. intros H. unfold starter_lines. cbn [nth]. now rewrite H. Qed.

(** * Further properties *)

(** ** The command pattern accepts the grammar only *)

Lemma repeat1_inv cls s c k r :
  repeat1 cls s c k = Some r ->
  exists w rest, s = w ++ rest /\ w <> []
                 /\ Forall (fun x => cls x = true) w /\ k rest c = Some r.
Proof.
  revert r. induction s as [| x s IH]; intros r H; [discriminate |].
  simpl in H. destruct (cls x) eqn:Hx; [| discriminate].
  destruct (repeat1 cls s c k) as [r' |] eqn:E.
  - destruct (IH r' eq_refl) as (w & rest & -> & _ & Hw & Hk).
    exists (x :: w), rest. repeat split; auto; [discriminate | congruence].
  - exists [x], s. repeat split; auto. discriminate.
Qed.

Lemma strip_literal_inv l s s' :
  strip_literal l s = Some s' ->
  exists w, s = w ++ s'
            /\ Forall2 (fun a b => canonicalize a = canonicalize b) l w.
Proof.
  revert s. induction l as [| a l IH]; intros s H.
  - simpl in H. injection H as <-. exists []. auto.
  - destruct s as [| b s]; [discriminate |]. simpl in H.
    destruct (N.eqb_spec (canonicalize a) (canonicalize b)) as [E |];
      [| discriminate].
    destruct (IH s H) as (w & -> & Hw). exists (b :: w). auto.
Qed.

Lemma run_digits_inv i s c k r :
  run (Group i (Plus is_digit)) s c k = Some r ->
  exists d rest, s = d ++ rest /\ numeral d /\ k rest ((i, d) :: c) = Some r.
Proof.
  cbn [run]. intros H.
  apply repeat1_inv in H as (d & rest & -> & Hne & Hd & Hk).
  exists d, rest. repeat split; auto.
  rewrite length_app, Nat.add_sub in Hk.
  rewrite firstn_app, Nat.sub_diag, firstn_all in Hk. cbn [firstn] in Hk.
  now rewrite app_nil_r in Hk.
Qed.

Lemma run_field_inv kw i s c k r :
  run (field_re kw i) s c k = Some r ->
  exists f rest, field_ok kw (Some f) /\ s = field_text (Some f) ++ rest
                 /\ k rest ((i, f_digits f) :: c) = Some r.
Proof.
  unfold field_re. cbn [run]. intros H.
  apply repeat1_inv in H as (gap & s1 & -> & Hgne & Hgap & H).
  destruct (strip_literal (str kw) s1) as [s2 |] eqn:E; [| discriminate].
  apply strip_literal_inv in E as (word & -> & Hword).
  apply repeat1_inv in H as (sep & s3 & -> & Hsne & Hsep & H).
  apply repeat1_inv in H as (d & rest & -> & Hdne & Hd & Hk).
  exists {| f_gap := gap; f_word := word; f_sep := sep; f_digits := d |}, rest.
  split; [| split].
  - cbn [field_ok f_gap f_word f_sep f_digits]. unfold blank, numeral, spells.
    auto.
  - cbn [field_text f_gap f_word f_sep f_digits]. now rewrite <- !app_assoc.
  - cbn [f_digits].
    rewrite length_app, Nat.add_sub in Hk.
    rewrite firstn_app, Nat.sub_diag, firstn_all in Hk. cbn [firstn] in Hk.
    now rewrite app_nil_r in Hk.
Qed.

Lemma run_status_inv s c r :
  run (Cat status_part Eos) s c matched = Some r ->
  exists f, field_ok "status" f /\ s = field_text f.
Proof.
  change (Cat status_part Eos) with (Cat (Opt (field_re "status" 3)) Eos).
  cbn [run]. intros H.
  match type of H with
  | match ?m with _ => _ end = _ => destruct m as [res |] eqn:E
  end.
  - apply (run_field_inv "status" 3) in E as (f & rest & Hf & -> & Hk).
    destruct rest; [| discriminate].
    exists (Some f). split; [exact Hf | now rewrite app_nil_r].
  - destruct s; [| discriminate]. exists None. simpl. auto.
Qed.

Lemma run_topic_inv s c r :
  run (Cat topic_part (Cat status_part Eos)) s c matched = Some r ->
  exists ft fs, field_ok "topic" ft /\ field_ok "status" fs
                /\ s = field_text ft ++ field_text fs.
Proof.
  change (Cat topic_part (Cat status_part Eos))
    with (Cat (Opt (field_re "topic" 2)) (Cat status_part Eos)).
  cbn [run]. intros H.
  match type of H with
  | match ?m with _ => _ end = _ => destruct m as [res |] eqn:E
  end.
  - apply (run_field_inv "topic" 2) in E as (f & rest & Hf & -> & Hk).
    pose proof (run_status_inv rest ((2%nat, f_digits f) :: c) res) as S.
    cbn [run] in S. destruct (S Hk) as (fs & Hfs & ->).
    exists (Some f), fs. auto.
  - pose proof (run_status_inv s c r) as S. cbn [run] in S.
    destruct (S H) as (fs & Hfs & ->).
    exists None, fs. simpl. auto.
Qed.

(** Whatever the pattern matches is a command of the grammar. *)
Lemma match_is_command text c :
  String_match text proposals_re = Some c ->
  exists cmd, command_ok cmd /\ text = command_text cmd.
Proof.
  unfold String_match, proposals_re, limit_part.
  change (fun (_ : jsstring) (c : captures) => Some c) with matched.
  cbn [run]. intros H.
  destruct (strip_literal (str "!proposals") text) as [s1 |] eqn:E;
    [| discriminate].
  apply strip_literal_inv in E as (word & -> & Hword).
  match type of H with
  | match ?m with _ => _ end = _ => destruct m as [res |] eqn:E
  end.
  - apply repeat1_inv in E as (gap & s2 & -> & Hgne & Hgap & E).
    apply repeat1_inv in E as (d & rest & -> & Hdne & Hd & Hk).
    pose proof (run_topic_inv rest) as T. cbn [run] in T.
    destruct (T _ _ Hk) as (ft & fs & Hft & Hfs & ->).
    exists {| cmd_word := word; cmd_limit := Some (gap, d);
              cmd_topic := ft; cmd_status := fs |}.
    split.
    + unfold command_ok, blank, numeral, spells.
      cbn [cmd_word cmd_limit cmd_topic cmd_status]. auto.
    + unfold command_text.
      cbn [cmd_word cmd_limit cmd_topic cmd_status limit_text].
      now rewrite <- !app_assoc.
  - pose proof (run_topic_inv s1) as T. cbn [run] in T.
    destruct (T _ _ H) as (ft & fs & Hft & Hfs & ->).
    exists {| cmd_word := word; cmd_limit := None;
              cmd_topic := ft; cmd_status := fs |}.
    split.
    + unfold command_ok, spells.
      cbn [cmd_word cmd_limit cmd_topic cmd_status]. auto.
    + reflexivity.
Qed.

(** X1. The pattern of [governanceProvider.get] matches a text exactly when
    the text is a command of the grammar
    [!proposals [<limit>] [topic <id>] [status <id>]]: keyword and field
    names in any letter case, white space between the parts, numbers made
    of digits, nothing before and nothing after. *)
Theorem pattern_is_grammar (text : jsstring) :
  String_match text proposals_re <> None
  <-> exists cmd, command_ok cmd /\ text = command_text cmd.
Proof.
  split.
  - destruct (String_match text proposals_re) as [c |] eqn:E; [| congruence].
    intros _. exact (match_is_command text c E).
  - intros (cmd & Hok & ->). rewrite (match_command cmd Hok). discriminate.
Qed.

Lemma pattern_is_grammar_witness :
  exists cmd, command_ok cmd
              /\ str "!proposals 20 topic 17 status 4" = command_text cmd.
Proof.
  apply (proj1 (pattern_is_grammar (str "!proposals 20 topic 17 status 4"))).
  vm_compute. discriminate.
Defined.

Lemma toNumber_natural z : 0 <= z -> natural (toNumber z).
Proof.
  intros Hz. unfold toNumber.
  destruct (Z.abs z <? 2 ^ 53); [exact Hz |].
  cbv zeta.
  match goal with
  | |- natural (if ?b then _ else _) => destruct b; [exact I |]
  end.
  cbn [natural]. apply Z.mul_nonneg_nonneg; [lia |].
  apply Z.shiftl_nonneg.
  assert (0 <= Z.shiftr (Z.abs z) (Z.log2 (Z.abs z) - 52))
    by (apply Z.shiftr_nonneg; lia).
  destruct (_ || _); lia.
Qed.

Lemma denoted_natural c :
  command_ok c ->
  natural (q_limit (denoted c))
  /\ match q_topicFilter (denoted c) with
     | Some t => natural t
     | None => True
     end
  /\ match q_statusFilter (denoted c) with
     | Some s => natural s
     | None => True
     end.
Proof.
  intros (_ & Hlimit & Htp & Hst). unfold denoted.
  cbn [q_limit q_topicFilter q_statusFilter].
  destruct (cmd_limit c) as [[gap d1] |], (cmd_topic c) as [ft |],
    (cmd_status c) as [fs |]; cbn [option_map];
    repeat match goal with
      | H : _ /\ _ |- _ => destruct H
      | H : field_ok _ (Some _) |- _ => destruct H as (_ & _ & _ & H)
      end;
    repeat split;
    try (apply toNumber_natural; apply decimal_value_nonneg; assumption);
    simpl; lia.
Qed.

(** X2. Whatever the text, the limit [governanceProvider.get] reads from it
    is a number that is neither [NaN] nor negative, and so is each filter
    it reads; the limit is 10 and the filters are unset unless the text is
    a command of the grammar. *)
Theorem parsed_numbers_natural (text : jsstring) :
  natural (q_limit (parse_command text))
  /\ match q_topicFilter (parse_command text) with
     | Some t => natural t
     | None => True
     end
  /\ match q_statusFilter (parse_command text) with
     | Some s => natural s
     | None => True
     end
  /\ ((exists cmd, command_ok cmd /\ text = command_text cmd)
      \/ parse_command text
         = {| q_limit := Num 10; q_topicFilter := None;
              q_statusFilter := None |}).
Proof.
  destruct (String_match text proposals_re) as [c |] eqn:E.
  - destruct (match_is_command text c E) as (cmd & Hok & ->).
    rewrite (parse_command_denoted cmd Hok).
    destruct (denoted_natural cmd Hok) as (H1 & H2 & H3).
    repeat split; eauto.
  - assert (P : parse_command text
                = {| q_limit := Num 10; q_topicFilter := None;
                     q_statusFilter := None |})
      by (unfold parse_command; rewrite E; reflexivity).
    rewrite P. cbn. repeat split; auto. lia.
Qed.

(** ** The topics a request excludes *)

Lemma filter_all {A} (f : A -> bool) l :
  (forall a, In a l -> f a = true) -> filter f l = l.
Proof.
  induction l as [| a l IH]; intros H; [reflexivity |].
  simpl. rewrite (H a) by (simpl; auto). f_equal. apply IH.
  intros b Hb. apply H. simpl. auto.
Qed.

(** X3. When the topic filter is not a registered topic code (11, or 99),
    the request excludes every registered topic. *)
Theorem unregistered_topic_excludes_all (limit : number)
  (statusFilter : option number) (t : number) :
  (forall c, In c (registered_codes Topic_literal) -> t <> Num c) ->
  did.exclude_topic (request limit statusFilter (Some t))
  = map Num (registered_codes Topic_literal).
Proof.
  intros H. cbn [request did.exclude_topic].
  rewrite exclude_topic_of_filter, registered_topic_codes.
  f_equal. apply filter_all. intros c Hc.
  destruct (num_eqb (Num c) t) eqn:E; [| reflexivity].
  apply num_eqb_eq in E. exfalso. apply (H c); [| congruence].
  now rewrite registered_topic_codes.
Qed.

Lemma unregistered_topic_excludes_all_witness :
  did.exclude_topic (request (Num 10) None (Some (Num 11)))
  = map Num (registered_codes Topic_literal).
Proof.
  apply (unregistered_topic_excludes_all (Num 10) None (Num 11)).
  intros c Hc E. injection E as <-. vm_compute in Hc. intuition discriminate.
Defined.

(** X4. When the topic filter is a registered topic code, the request
    excludes the seventeen other registered codes, each of them, and not
    the code asked for. *)
Theorem registered_topic_kept (limit : number)
  (statusFilter : option number) (c : Z) :
  In c (registered_codes Topic_literal) ->
  ~ In (Num c) (did.exclude_topic (request limit statusFilter (Some (Num c))))
  /\ List.length
       (did.exclude_topic (request limit statusFilter (Some (Num c)))) = 17%nat
  /\ forall c', In c' (registered_codes Topic_literal) -> c' <> c ->
       In (Num c')
          (did.exclude_topic (request limit statusFilter (Some (Num c)))).
Proof.
  intros Hc. cbn [request did.exclude_topic].
  rewrite exclude_topic_of_filter. split; [| split].
  - intros H. apply in_map_iff in H as (x & E & Hx).
    injection E as ->. apply filter_In in Hx as [_ Hx].
    simpl in Hx. now rewrite Z.eqb_refl in Hx.
  - rewrite registered_topic_codes in Hc. unfold topic_codes in Hc.
    repeat (destruct Hc as [<- | Hc]; [reflexivity |]). destruct Hc.
  - intros c' Hc' Hne. apply in_map. apply filter_In. split.
    + now rewrite <- registered_topic_codes.
    + simpl. destruct (Z.eqb_spec c' c); [contradiction | reflexivity].
Qed.

Lemma registered_topic_kept_witness :
  ~ In (Num 13) (did.exclude_topic (request (Num 50) None (Some (Num 13))))
  /\ List.length
       (did.exclude_topic (request (Num 50) None (Some (Num 13)))) = 17%nat
  /\ forall c', In c' (registered_codes Topic_literal) -> c' <> 13 ->
       In (Num c')
          (did.exclude_topic (request (Num 50) None (Some (Num 13)))).
Proof.
  apply (registered_topic_kept (Num 50) None 13). vm_compute. tauto.
Defined.

(** ** Failures and sizes *)

Lemma loop_first_failure g tf sf before p after xs e acc :
  Forall2 (fun p x => resolve g p = Ok x) before xs ->
  resolve g p = Err e ->
  loop g tf sf (before ++ p :: after) acc = Err e.
Proof.
  intros H Hp. revert acc.
  induction H as [| q x before xs Hq H IH]; intros acc.
  - rewrite app_nil_l. now rewrite loop_cons, Hp.
  - rewrite <- app_comm_cons, loop_cons, Hq. cbn [bind]. apply IH.
Qed.

(** What makes a listed proposal fail to resolve: a missing identifier, a
    missing proposal or an empty detail raise a [TypeError]; a rejected
    detail call gives its own reason. *)
Lemma resolve_error g p e :
  resolve g p = Err e <->
  (did.id p = None /\ e = TypeError)
  \/ (exists pid, did.id p = Some pid /\
        ((did.proposal p = None /\ e = TypeError)
         \/ (did.proposal p <> None /\
               (get_proposal_info g (did.ProposalId.id pid) = Err e
                \/ (get_proposal_info g (did.ProposalId.id pid) = Ok None
                    /\ e = TypeError))))).
Proof.
  unfold resolve, fetchProposalInfo.
  destruct (did.id p) as [pid |] eqn:Hid; cbn [first bind].
  2: { split.
       - intros H. injection H as <-. auto.
       - intros [[_ ->] | (pid' & H & _)]; [reflexivity | discriminate]. }
  destruct (did.proposal p) as [prop |] eqn:Hprop; cbn [bind].
  2: { split.
       - intros H. injection H as <-. right. exists pid. auto.
       - intros [[H _] | (pid' & H & [[_ ->] | (H' & _)])];
           [discriminate | reflexivity | congruence]. }
  destruct (get_proposal_info g (did.ProposalId.id pid)) as [[d |] | e'] eqn:E;
    cbn [bind first]; split;
    try (intros H; destruct H as [[H _] | (pid' & H & H')]; [discriminate |];
         injection H as <-;
         destruct H' as [[H' _] | (_ & [H' | [H' He]])];
         try discriminate; congruence).
  - discriminate.
  - intros H. injection H as <-. right. exists pid. split; [reflexivity |].
    right. split; [discriminate |]. right. auto.
  - intros H. injection H as <-. right. exists pid. split; [reflexivity |].
    right. split; [discriminate |]. left. exact E.
Qed.

(** X5. The query stops at the first listed proposal that does not
    resolve: when the proposals before it resolve and it does not, the
    query fails with the error of that proposal, and nothing is returned
    for the proposals before or after it. *)
Theorem first_failure_aborts (governance : Governance) (text : jsstring)
  (response : did.ListProposalInfoResponse)
  (before after : list did.ProposalInfo) (p : did.ProposalInfo)
  (xs : list resolved) (e : error) :
  list_proposals governance (request_of text) = Ok response ->
  did.proposal_info response = before ++ p :: after ->
  Forall2 (fun p x => resolve governance p = Ok x) before xs ->
  resolve governance p = Err e ->
  get governance text = Err e.
Proof.
  intros Hl Hps Hxs Hp. rewrite get_unfold, Hl. cbn [bind]. rewrite Hps.
  now apply (loop_first_failure _ _ _ _ _ _ xs).
Qed.

Lemma first_failure_aborts_witness :
  get sample_missing (str "!proposals") = Err TypeError.
Proof.
  apply (first_failure_aborts sample_missing (str "!proposals")
           {| did.proposal_info :=
                [ listed 101 (Some (str "Upgrade the registry"))
                         (Some (str "Motion text"));
                  listed 104 (Some (str "Lost")) (Some (str "No detail"));
                  listed 102 None None ] |}
           [ listed 101 (Some (str "Upgrade the registry"))
                    (Some (str "Motion text")) ]
           [ listed 102 None None ]
           (listed 104 (Some (str "Lost")) (Some (str "No detail")))
           (firstn 1 sample_resolved)).
  - reflexivity.
  - reflexivity.
  - repeat constructor.
  - reflexivity.
Defined.

Lemma Forall2_length_eq {A B} (R : A -> B -> Prop) l1 l2 :
  Forall2 R l1 l2 -> List.length l1 = List.length l2.
Proof. induction 1; simpl; congruence. Qed.

(** X6. A query never returns more records than the ledger listed, and
    when the text carries no filter it returns exactly as many. *)
Theorem output_size (governance : Governance) (text : jsstring)
  (out : list Summary.t) :
  get governance text = Ok out ->
  exists response,
    list_proposals governance (request_of text) = Ok response
    /\ (List.length out <= List.length (did.proposal_info response))%nat
    /\ match q_topicFilter (parse_command text),
             q_statusFilter (parse_command text) with
       | None, None =>
           List.length out = List.length (did.proposal_info response)
       | _, _ => True
       end.
Proof.
  intros H. destruct (get_ok _ _ _ H) as (response & xs & Hl & Hxs & ->).
  exists response. split; [exact Hl |].
  rewrite length_map, (Forall2_length_eq _ _ _ Hxs). split.
  - apply filter_length_le.
  - destruct (q_topicFilter (parse_command text)); [exact I |].
    destruct (q_statusFilter (parse_command text)); [exact I |].
    now rewrite filter_all.
Qed.

Lemma output_size_witness :
  exists response,
    list_proposals sample (request_of sample_text) = Ok response
    /\ (List.length (map project (firstn 2 sample_resolved))
        <= List.length (did.proposal_info response))%nat
    /\ match q_topicFilter (parse_command sample_text),
             q_statusFilter (parse_command sample_text) with
       | None, None =>
           List.length (map project (firstn 2 sample_resolved))
           = List.length (did.proposal_info response)
       | _, _ => True
       end.
Proof.
  apply (output_size sample sample_text). vm_compute. reflexivity.
Defined.

(** ** Codes read back from a record *)

Lemma resolve_detail g p x :
  resolve g p = Ok x -> get_proposal_info g (r_id x) = Ok (Some (r_detail x)).
Proof.
  unfold resolve, fetchProposalInfo.
  destruct (did.id p) as [pid |]; [| discriminate]. cbn [first bind].
  destruct (did.proposal p); [| discriminate]. cbn [bind].
  destruct (get_proposal_info g (did.ProposalId.id pid)) as [[d |] | e] eqn:E;
    try discriminate.
  cbn [bind first]. intros H. injection H as <-. exact E.
Qed.

(** X7. On a ledger whose details carry 32-bit codes, the [topic] and
    [status] strings of every record returned read back, with [parseInt],
    as exactly the topic and status codes of the detail the record was made
    from; and that detail is the one the ledger holds under the record's
    identifier. *)
Theorem record_codes_round_trip (governance : Governance) (text : jsstring)
  (out : list Summary.t) (r : Summary.t) :
  typed_ledger governance ->
  get governance text = Ok out -> In r out ->
  exists i d,
    get_proposal_info governance i = Ok (Some d)
    /\ Summary.id r = VStr (Z_toString i)
    /\ code_of (Summary.topic r) = Num (did.topic d)
    /\ code_of (Summary.status r) = Num (did.status d).
Proof.
  intros Hty Hget Hr.
  destruct (get_record _ _ _ _ Hget Hr)
    as (response & p & x & _ & _ & Hres & _ & ->).
  pose proof (resolve_detail _ _ _ Hres) as Hd.
  destruct (Hty _ _ Hd) as [Ht Hs]. unfold int32 in Ht, Hs.
  exists (r_id x), (r_detail x). split; [exact Hd |]. split; [reflexivity |].
  cbn [project Summary.topic Summary.status code_of].
  rewrite !parseInt_Z_toString by auto.
  split; apply toNumber_exact; lia.
Qed.

Lemma record_codes_round_trip_witness :
  exists i d,
    get_proposal_info sample i = Ok (Some d)
    /\ Summary.id (project sample_untitled) = VStr (Z_toString i)
    /\ code_of (Summary.topic (project sample_untitled)) = Num (did.topic d)
    /\ code_of (Summary.status (project sample_untitled))
       = Num (did.status d).
Proof.
  apply (record_codes_round_trip sample sample_text
           (map project (firstn 2 sample_resolved))).
  - intros i d. unfold sample, sample_info, int32. cbn [get_proposal_info].
    destruct (i =? 101); [intros H; injection H as <-; simpl; lia |].
    destruct (i =? 102); [intros H; injection H as <-; simpl; lia |].
    destruct (i =? 103); [intros H; injection H as <-; simpl; lia |].
    discriminate.
  - vm_compute. reflexivity.
  - simpl. auto.
Defined.

(** ** The reverse mapping of an enum literal *)

Lemma jsstring_eqb_eq a b : jsstring_eqb a b = true <-> a = b.
Proof.
  unfold jsstring_eqb. destruct (list_eq_dec N.eq_dec a b); split;
    congruence.
Qed.

Lemma jsstring_eqb_refl a : jsstring_eqb a a = true.
Proof. now apply jsstring_eqb_eq. Qed.

Lemma jsstring_eqb_neq a b : a <> b -> jsstring_eqb a b = false.
Proof.
  intros H. destruct (jsstring_eqb a b) eqn:E; [| reflexivity].
  apply jsstring_eqb_eq in E. contradiction.
Qed.

(** Reading a property just written gives what was written. *)
Lemma obj_get_set_same o k v : obj_get (obj_set o k v) k = v.
Proof.
  induction o as [| [k' v'] o IH]; simpl.
  - now rewrite jsstring_eqb_refl.
  - destruct (jsstring_eqb k' k) eqn:E; simpl; rewrite E; auto.
Qed.

(** Writing a property leaves the others as they were. *)
Lemma obj_get_set_other o k v k' :
  k' <> k -> obj_get (obj_set o k v) k' = obj_get o k'.
Proof.
  intros H. induction o as [| [k0 v0] o IH]; simpl.
  - rewrite jsstring_eqb_neq by congruence. reflexivity.
  - destruct (jsstring_eqb k0 k) eqn:E; simpl.
    + apply jsstring_eqb_eq in E. subst k0.
      now rewrite !jsstring_eqb_neq by congruence.
    + destruct (jsstring_eqb k0 k'); auto.
Qed.

Lemma reverse_fold_other es o k :
  (forall e, In e es -> ToPropertyKey (snd e) <> k) ->
  obj_get (fold_left (fun o e => obj_set o (ToPropertyKey (snd e))
                                         (VStr (fst e))) es o) k
  = obj_get o k.
Proof.
  revert o. induction es as [| e es IH]; intros o H; [reflexivity |].
  cbn [fold_left]. rewrite IH by (intros e' He'; apply H; simpl; auto).
  apply obj_get_set_other. intros E. apply (H e); simpl; auto.
Qed.

Lemma reverse_fold_last es1 e es2 o :
  (forall e', In e' es2 -> ToPropertyKey (snd e') <> ToPropertyKey (snd e)) ->
  obj_get (fold_left (fun o e => obj_set o (ToPropertyKey (snd e))
                                         (VStr (fst e)))
                     (es1 ++ e :: es2) o) (ToPropertyKey (snd e))
  = VStr (fst e).
Proof.
  intros H. rewrite fold_left_app. cbn [fold_left].
  rewrite reverse_fold_other by exact H. apply obj_get_set_same.
Qed.

Lemma chars_of_uint_inj d1 d2 :
  chars_of_uint d1 = chars_of_uint d2 -> d1 = d2.
Proof.
  revert d2. induction d1; intros d2 H; destruct d2; simpl in H;
    try discriminate; try reflexivity;
    injection H as H; f_equal; now apply IHd1.
Qed.

Lemma chars_of_uint_head d h t :
  chars_of_uint d = h :: t -> is_digit h = true.
Proof.
  intros H. pose proof (chars_of_uint_digits d) as F. rewrite H in F.
  now inversion F.
Qed.

Lemma Z_toString_inj z1 z2 : Z_toString z1 = Z_toString z2 -> z1 = z2.
Proof.
  unfold Z_toString. intros H. apply DecimalZ.to_int_inj.
  destruct (Z.to_int z1) as [d1 | d1], (Z.to_int z2) as [d2 | d2].
  - f_equal. now apply chars_of_uint_inj.
  - apply chars_of_uint_head in H. discriminate.
  - symmetry in H. apply chars_of_uint_head in H. discriminate.
  - injection H as H. f_equal. now apply chars_of_uint_inj.
Qed.

Lemma letter_not_digit h : is_letter h = true -> is_digit h = false.
Proof.
  unfold is_letter, is_digit. intros H.
  apply andb_false_iff.
  apply orb_prop in H as [H | H]; apply andb_prop in H as [H1 H2];
    apply N.leb_le in H1, H2; right; apply Z.leb_gt; lia.
Qed.

(** A name is not the decimal form of any integer. *)
Lemma named_not_code k z : named k = true -> Z_toString z <> k.
Proof.
  intros Hk E. subst k. unfold Z_toString, named in Hk.
  destruct (Z.to_int z) as [d | d].
  - destruct (chars_of_uint d) as [| h t] eqn:Hd; [discriminate |].
    apply chars_of_uint_head in Hd. apply letter_not_digit in Hk. congruence.
  - vm_compute in Hk. discriminate.
Qed.

Lemma named_not_index k : named k = true -> array_index k = None.
Proof.
  destruct k as [| h t]; [discriminate |]. cbn [named]. intros H.
  unfold array_index. cbn [read_digits].
  assert (E : digit_value 10 h = None).
  { unfold digit_value, is_letter in *. cbv zeta.
    apply orb_prop in H as [H | H]; apply andb_prop in H as [H1 H2];
      apply N.leb_le in H1, H2.
    - destruct (Z.leb_spec 48 (Z.of_N h)), (Z.leb_spec (Z.of_N h) 57);
        cbn [andb]; try lia.
      + destruct (Z.leb_spec 97 (Z.of_N h)), (Z.leb_spec (Z.of_N h) 122);
          cbn [andb]; try lia;
          destruct (Z.leb_spec 65 (Z.of_N h)), (Z.leb_spec (Z.of_N h) 90);
          cbn [andb]; try lia;
          match goal with
          | |- (if ?b then _ else _) = _ =>
              destruct (Z.ltb_spec (Z.of_N h - 65 + 10) 10); [lia | reflexivity]
          end.
    - destruct (Z.leb_spec 48 (Z.of_N h)), (Z.leb_spec (Z.of_N h) 57);
        cbn [andb]; try lia.
      + destruct (Z.leb_spec 97 (Z.of_N h)), (Z.leb_spec (Z.of_N h) 122);
          cbn [andb]; try lia.
        destruct (Z.ltb_spec (Z.of_N h - 97 + 10) 10); [lia | reflexivity]. }
  now rewrite E.
Qed.

Lemma enum_entries literal :
  Forall (fun e => named (fst e) = true) literal ->
  Object_entries literal = literal.
Proof.
  intros H. unfold Object_entries.
  assert (I : index_entries literal = [] /\ named_entries literal = literal).
  { unfold named_entries.
    induction H as [| [k v] l Hk H [IH1 IH2]]; [auto |].
    cbn [index_entries filter fst]. cbn [fst] in Hk.
    rewrite (named_not_index k Hk), IH1, IH2. auto. }
  destruct I as [-> ->]. reflexivity.
Qed.

Lemma distinct_not_in {A} (eqb : A -> A -> bool) a l :
  (forall x, eqb x x = true) ->
  distinct eqb (a :: l) = true -> ~ In a l.
Proof.
  intros Hrefl H Ha. cbn [distinct] in H. apply andb_prop in H as [H _].
  apply negb_true_iff in H.
  assert (E : existsb (eqb a) l = true)
    by (apply existsb_exists; exists a; auto).
  congruence.
Qed.

Lemma distinct_tail {A} (eqb : A -> A -> bool) l1 l2 :
  distinct eqb (l1 ++ l2) = true -> distinct eqb l2 = true.
Proof.
  induction l1 as [| a l1 IH]; [auto |].
  cbn [List.app distinct]. intros H. apply andb_prop in H as [_ H]. auto.
Qed.

Lemma forallb_entries literal :
  forallb (fun e => named (fst e)
                    && match snd e with
                       | VNum (Num c) => Z.abs c <? 2 ^ 53
                       | _ => false
                       end) literal = true ->
  Forall (fun e => named (fst e) = true
                   /\ exists c, snd e = VNum (Num c)) literal.
Proof.
  intros H. apply Forall_forall. intros [k v] He.
  rewrite forallb_forall in H. specialize (H _ He). cbn [fst snd] in *.
  apply andb_prop in H as [H1 H2]. split; [exact H1 |].
  destruct v as [| [| | c] | |]; try discriminate. eauto.
Qed.

Lemma registered_codes_app l1 l2 :
  registered_codes (l1 ++ l2) = registered_codes l1 ++ registered_codes l2.
Proof. unfold registered_codes. apply flat_map_app. Qed.

Lemma obj_get_first literal name v :
  distinct jsstring_eqb (map fst literal) = true ->
  In (name, v) literal -> obj_get literal name = v.
Proof.
  induction literal as [| [k v'] l IH]; intros Hd Hin; [destruct Hin |].
  cbn [obj_get]. destruct Hin as [E | Hin].
  - injection E as -> ->. now rewrite jsstring_eqb_refl.
  - destruct (jsstring_eqb k name) eqn:E.
    + apply jsstring_eqb_eq in E. subst k. exfalso.
      apply (distinct_not_in jsstring_eqb name (map fst l)
               jsstring_eqb_refl Hd).
      apply in_map_iff. exists (name, v). auto.
    + apply IH; [| exact Hin]. cbn [map distinct] in Hd.
      now apply andb_prop in Hd as [_ Hd].
Qed.

(** X8. The reverse-mapping loop of topic.ts and status.ts is right for
    every enum literal, not only for the two tables: when each property of
    the literal is a name (starting with a letter) with an integer code of
    magnitude below 2^53, no name is repeated and no code is repeated, then
    after the loop every code leads to its name and every name still leads
    to its code. *)
Theorem reverse_mapping_round_trip (literal : object) (name : jsstring)
  (c : Z) :
  enum_literal literal = true ->
  In (name, VNum (Num c)) literal ->
  obj_get (add_reverse_mapping literal) (Z_toString c) = VStr name
  /\ obj_get (add_reverse_mapping literal) name = VNum (Num c)
  /\ code_name_code (add_reverse_mapping literal) c = VNum (Num c).
Proof.
  intros Hl Hin. unfold enum_literal in Hl.
  apply andb_prop in Hl as [Hl Hcodes]. apply andb_prop in Hl as [Hl Hnames].
  apply forallb_entries in Hl.
  assert (Hnamed : Forall (fun e => named (fst e) = true) literal)
    by (eapply Forall_impl; [| exact Hl]; now intros e [H _]).
  assert (A : obj_get (add_reverse_mapping literal) (Z_toString c) = VStr name).
  { unfold add_reverse_mapping. rewrite (enum_entries literal Hnamed).
    destruct (in_split _ _ Hin) as (es1 & es2 & E).
    rewrite E at 1.
    apply (reverse_fold_last es1 (name, VNum (Num c)) es2 literal).
    intros [k' v'] He' Hk. cbn [snd ToPropertyKey] in Hk.
    rewrite Forall_forall in Hl.
    destruct (Hl (k', v')) as [_ (c' & Hv')];
      [rewrite E; apply in_or_app; simpl; auto |].
    cbn [snd] in Hv'. subst v'. cbn [ToPropertyKey] in Hk.
    apply Z_toString_inj in Hk. subst c'.
    rewrite E, registered_codes_app in Hcodes.
    apply distinct_tail in Hcodes.
    change (registered_codes ((name, VNum (Num c)) :: es2))
      with (c :: registered_codes es2) in Hcodes.
    apply (distinct_not_in Z.eqb c _ Z.eqb_refl Hcodes).
    unfold registered_codes. apply in_flat_map.
    exists (k', VNum (Num c)). simpl. auto. }
  assert (B : obj_get (add_reverse_mapping literal) name = VNum (Num c)).
  { unfold add_reverse_mapping. rewrite (enum_entries literal Hnamed).
    rewrite reverse_fold_other.
    - now apply obj_get_first.
    - intros [k' v'] He'. rewrite Forall_forall in Hl.
      destruct (Hl _ He') as [_ (c' & Hv')]. cbn [snd] in Hv' |- *. subst v'.
      cbn [ToPropertyKey]. apply named_not_code.
      rewrite Forall_forall in Hnamed. apply (Hnamed _ Hin). }
  split; [exact A |]. split; [exact B |].
  unfold code_name_code. now rewrite A.
Qed.

Lemma reverse_mapping_round_trip_witness :
  obj_get Topic (Z_toString 17) = VStr (str "ProtocolCanisterManagement")
  /\ obj_get Topic (str "ProtocolCanisterManagement") = VNum (Num 17)
  /\ code_name_code Topic 17 = VNum (Num 17).
Proof.
  apply (reverse_mapping_round_trip Topic_literal
           (str "ProtocolCanisterManagement") 17).
  - vm_compute. reflexivity.
  - vm_compute. tauto.
Defined.

(** X9. On such an enum literal (names with integer codes of magnitude
    below 2^53, none repeated) the loop adds nothing but the codes: a key
    that is not the decimal form of a code of the literal reads, after the
    loop, as it read in the literal, so an unregistered code such as 11 in
    [Topic] stays undefined. *)
Theorem reverse_mapping_adds_codes_only (literal : object) (k : jsstring) :
  enum_literal literal = true ->
  (forall c, In c (registered_codes literal) -> Z_toString c <> k) ->
  obj_get (add_reverse_mapping literal) k = obj_get literal k.
Proof.
  intros Hl Hk. unfold enum_literal in Hl.
  apply andb_prop in Hl as [Hl _]. apply andb_prop in Hl as [Hl _].
  apply forallb_entries in Hl.
  assert (Hnamed : Forall (fun e => named (fst e) = true) literal)
    by (eapply Forall_impl; [| exact Hl]; now intros e [H _]).
  unfold add_reverse_mapping. rewrite (enum_entries literal Hnamed).
  apply reverse_fold_other. intros [k' v'] He'.
  rewrite Forall_forall in Hl. destruct (Hl _ He') as [_ (c' & Hv')].
  cbn [snd] in Hv' |- *. subst v'. cbn [ToPropertyKey]. apply Hk.
  unfold registered_codes. apply in_flat_map.
  exists (k', VNum (Num c')). simpl. auto.
Qed.

Lemma reverse_mapping_adds_codes_only_witness :
  obj_get Topic (str "11") = obj_get Topic_literal (str "11")
  /\ obj_get Topic_literal (str "11") = VUndefined.
Proof.
  split; [| reflexivity].
  apply (reverse_mapping_adds_codes_only Topic_literal (str "11")).
  - vm_compute. reflexivity.
  - intros c Hc E. vm_compute in Hc.
    repeat (destruct Hc as [<- | Hc]; [vm_compute in E; discriminate |]).
    destruct Hc.
Defined.

(** ** The first provider *)

Lemma listing_match l word :
  spells "!proposals" word ->
  match l with
  | Some (gap, digits) => blank gap /\ numeral digits
  | None => True
  end ->
  String_match (word ++ limit_text l) listing.proposals_re
  = Some (limit_captures l).
Proof.
  intros Hword Hl.
  unfold String_match, listing.proposals_re, limit_part.
  change (fun (_ : jsstring) (c : captures) => Some c) with matched.
  cbn [run]. rewrite (strip_literal_spells _ _ _ Hword).
  destruct l as [[gap digits] |].
  - destruct Hl as [Hgap Hdig]. cbn [limit_text limit_captures].
    rewrite <- (app_nil_r digits) at 1.
    rewrite (plus_longest is_space gap _ [] _ [(1%nat, digits)]);
      try apply Hgap; auto.
    + now apply numeral_stops_space.
    + apply (run_digits 1 digits [] []
               (fun s' c' => run Eos s' c' matched)); simpl; auto.
  - reflexivity.
Qed.

Lemma listing_match_inv text c :
  String_match text listing.proposals_re = Some c ->
  exists word rest,
    text = word ++ rest /\ spells "!proposals" word
    /\ Forall (fun x => is_space x = true \/ is_digit x = true) rest.
Proof.
  unfold String_match, listing.proposals_re, limit_part.
  change (fun (_ : jsstring) (c : captures) => Some c) with matched.
  cbn [run]. intros H.
  destruct (strip_literal (str "!proposals") text) as [s1 |] eqn:E;
    [| discriminate].
  apply strip_literal_inv in E as (word & -> & Hword).
  exists word, s1. split; [reflexivity |]. split; [exact Hword |].
  match type of H with
  | match ?m with _ => _ end = _ => destruct m as [res |] eqn:E
  end.
  - apply repeat1_inv in E as (gap & s2 & -> & _ & Hgap & E).
    apply repeat1_inv in E as (d & rest & -> & _ & Hd & Hk).
    destruct rest; [| discriminate]. rewrite app_nil_r.
    apply Forall_app. split; eapply Forall_impl; eauto; cbv beta; auto.
  - destruct s1; [constructor | discriminate].
Qed.

Lemma app_same_length {A} (a1 a2 b1 b2 : list A) :
  List.length a1 = List.length a2 -> a1 ++ b1 = a2 ++ b2 ->
  a1 = a2 /\ b1 = b2.
Proof.
  revert a2. induction a1 as [| x a1 IH]; intros [| y a2] Hlen H;
    try discriminate; [auto |].
  simpl in Hlen, H. injection H as -> H. injection Hlen as Hlen.
  destruct (IH _ Hlen H) as [-> ->]. auto.
Qed.

Lemma field_has_letter kw a f rest :
  (65 <= canonicalize (N_of_ascii a) <= 90)%N ->
  field_ok (String a kw) (Some f) ->
  exists h, In h (field_text (Some f) ++ rest)
            /\ is_space h = false /\ is_digit h = false.
Proof.
  intros Ha (_ & Hword & _).
  destruct (spells_head _ _ _ Hword) as (h & t & E & Hh).
  destruct (letter_stops h _ [] Ha Hh) as [Hs Hd]. simpl in Hs, Hd.
  exists h. split; [| auto].
  unfold field_text. rewrite E.
  apply in_or_app. left. apply in_or_app. right. simpl. auto.
Qed.

(** X10. The first provider reads the limit of a command only when the
    command has no filter: on a command of the grammar with a limit alone
    (or nothing) it reads the limit the final provider reads, and on a
    command that carries a topic or a status field its pattern does not
    match and the limit is 10, whatever limit was written. *)
Theorem listing_limit (c : command) :
  command_ok c ->
  match cmd_topic c, cmd_status c with
  | None, None =>
      listing.limit_of (command_text c)
      = q_limit (parse_command (command_text c))
  | _, _ =>
      String_match (command_text c) listing.proposals_re = None
      /\ listing.limit_of (command_text c) = Num 10
  end.
Proof.
  intros Hc. pose proof Hc as (Hword & Hlimit & Htp & Hst).
  assert (Hno : forall h,
             In h (limit_text (cmd_limit c) ++ field_text (cmd_topic c)
                   ++ field_text (cmd_status c)) ->
             is_space h = false -> is_digit h = false ->
             String_match (command_text c) listing.proposals_re = None
             /\ listing.limit_of (command_text c) = Num 10).
  { intros h Hin Hs Hd.
    assert (E : String_match (command_text c) listing.proposals_re = None).
    { destruct (String_match (command_text c) listing.proposals_re)
        as [caps |] eqn:E; [| reflexivity].
      exfalso.
      apply listing_match_inv in E as (word & rest & E & Hw & Hrest).
      unfold command_text in E.
      apply app_same_length in E as [_ E].
      - rewrite E in Hin. rewrite Forall_forall in Hrest.
        destruct (Hrest h Hin); congruence.
      - unfold spells in Hword, Hw.
        rewrite <- (Forall2_length_eq _ _ _ Hword).
        now rewrite <- (Forall2_length_eq _ _ _ Hw). }
    split; [exact E |]. unfold listing.limit_of. now rewrite E. }
  destruct (cmd_topic c) as [ft |] eqn:Et.
  - destruct (field_has_letter "opic" "t" ft (field_text (cmd_status c)))
      as (h & Hin & Hs & Hd); [vm_compute; intuition congruence | exact Htp |].
    apply (Hno h); auto. apply in_or_app. auto.
  - destruct (cmd_status c) as [fs |] eqn:Es.
    + destruct (field_has_letter "tatus" "s" fs []) as (h & Hin & Hs & Hd);
        [vm_compute; intuition congruence | exact Hst |].
      rewrite app_nil_r in Hin.
      apply (Hno h); auto. apply in_or_app. right. exact Hin.
    + rewrite (parse_command_denoted c Hc).
      unfold listing.limit_of, command_text, denoted.
      rewrite Et, Es. cbn [field_text q_limit]. rewrite !app_nil_r.
      rewrite (listing_match _ _ Hword Hlimit).
      destruct (cmd_limit c) as [[gap d] |]; [| reflexivity].
      destruct Hlimit as [_ Hd]. cbn [limit_captures].
      pose proof (parseInt_numeral d 10 Hd (or_introl eq_refl)) as P.
      destruct (numeral_cons d Hd) as (x & s & E). subst d. exact P.
Qed.

Lemma listing_limit_witness :
  (String_match (str "!proposals 50 topic 13") listing.proposals_re = None
   /\ listing.limit_of (str "!proposals 50 topic 13") = Num 10)
  /\ listing.limit_of (str "!proposals 7")
     = q_limit (parse_command (str "!proposals 7")).
Proof.
  split.
  - apply (listing_limit limit_and_topic).
    unfold command_ok, limit_and_topic, field_ok, blank, numeral, spells.
    cbn [cmd_word cmd_limit cmd_topic cmd_status f_gap f_word f_sep f_digits].
    repeat split; try discriminate; vm_compute; repeat constructor.
  - apply (listing_limit limit_only).
    unfold command_ok, limit_only, field_ok, blank, numeral, spells.
    cbn [cmd_word cmd_limit cmd_topic cmd_status].
    repeat split; try discriminate; vm_compute; repeat constructor.
Defined.

Lemma listing_loop_lines ps ls acc :
  Forall2 (fun p l => headline p = Ok l) ps ls ->
  listing.loop ps acc = Ok (acc ++ ls).
Proof.
  intros H. revert acc. induction H as [| p l ps ls Hp H IH]; intros acc.
  - simpl. now rewrite app_nil_r.
  - cbn [listing.loop]. unfold headline in Hp.
    destruct (first (did.id p)) as [pid |]; [| discriminate].
    cbn [bind] in Hp |- *.
    destruct (first (did.proposal p)) as [prop |]; [| discriminate].
    cbn [bind] in Hp |- *. injection Hp as <-.
    rewrite IH. now rewrite <- app_assoc.
Qed.

Lemma listing_loop_ok ps acc out :
  listing.loop ps acc = Ok out ->
  exists ls, Forall2 (fun p l => headline p = Ok l) ps ls /\ out = acc ++ ls.
Proof.
  revert acc. induction ps as [| p ps IH]; intros acc H.
  - exists []. split; [constructor |]. simpl in H. rewrite app_nil_r.
    congruence.
  - cbn [listing.loop] in H.
    destruct (first (did.id p)) as [pid |] eqn:Hid; [| discriminate].
    cbn [bind] in H.
    destruct (first (did.proposal p)) as [prop |] eqn:Hprop; [| discriminate].
    cbn [bind] in H. apply IH in H as (ls & Hls & ->).
    eexists (_ :: ls). split.
    + constructor; [| exact Hls]. unfold headline. rewrite Hid. cbn [bind].
      rewrite Hprop. cbn [bind]. reflexivity.
    + now rewrite <- app_assoc.
Qed.

Lemma listing_loop_error ps acc e :
  listing.loop ps acc = Err e -> e = TypeError.
Proof.
  revert acc. induction ps as [| p ps IH]; intros acc H; [discriminate |].
  cbn [listing.loop] in H.
  destruct (did.id p) as [pid |]; cbn [first bind] in H; [| congruence].
  destruct (did.proposal p) as [prop |]; cbn [first bind] in H;
    [| congruence].
  eauto.
Qed.

(** X11. The first provider returns, for a list the ledger answers with,
    exactly one line [#<id> <title>] for each listed proposal, in the order
    of the list, and only when every listed proposal has an identifier and
    a proposal; otherwise it fails with a [TypeError]. The details the
    ledger holds play no part: two ledgers that list alike give the same
    result. *)
Theorem listing_lines (governance : Governance) (text : jsstring)
  (response : did.ListProposalInfoResponse) :
  list_proposals governance (listing.request (listing.limit_of text))
  = Ok response ->
  (forall out,
     listing.get governance text = Ok out
     <-> Forall2 (fun p l => headline p = Ok l)
                 (did.proposal_info response) out)
  /\ (listing.get governance text = Err TypeError
      \/ exists out,
           listing.get governance text = Ok out
           /\ List.length out = List.length (did.proposal_info response))
  /\ (forall other : Governance,
        list_proposals other = list_proposals governance ->
        listing.get other text = listing.get governance text).
Proof.
  intros Hl. split; [| split].
  - unfold listing.get, listing.fetchProposals. rewrite Hl. cbn [bind].
    intros out. split.
    + intros H. apply listing_loop_ok in H as (ls & Hls & ->). exact Hls.
    + intros H. now rewrite (listing_loop_lines _ out).
  - unfold listing.get, listing.fetchProposals. rewrite Hl. cbn [bind].
    destruct (listing.loop (did.proposal_info response) []) as [out | e] eqn:E.
    + right. exists out. split; [reflexivity |].
      apply listing_loop_ok in E as (ls & Hls & ->).
      symmetry. exact (Forall2_length_eq _ _ _ Hls).
    + left. now rewrite (listing_loop_error _ _ _ E).
  - intros other Ho. unfold listing.get, listing.fetchProposals.
    now rewrite Ho.
Qed.

Lemma listing_lines_witness :
  (forall out,
     listing.get sample (str "!proposals 3") = Ok out
     <-> Forall2 (fun p l => headline p = Ok l) sample_list out)
  /\ (listing.get sample (str "!proposals 3") = Err TypeError
      \/ exists out,
           listing.get sample (str "!proposals 3") = Ok out
           /\ List.length out = List.length sample_list)
  /\ (forall other : Governance,
        list_proposals other = list_proposals sample ->
        listing.get other (str "!proposals 3")
        = listing.get sample (str "!proposals 3")).
Proof.
  apply (listing_lines sample (str "!proposals 3")
           {| did.proposal_info := sample_list |}).
  reflexivity.
Defined.

(** ** The two filtering providers agree *)

Lemma loops_agree g tf sf ps acc acc' :
  (exists xs,
     Forall2 (fun p x => resolve g p = Ok x) ps xs
     /\ loop g tf sf ps acc
        = Ok (acc ++ map project (filter (survives tf sf) xs))
     /\ starter.loop g tf sf ps acc'
        = Ok (acc' ++ flat_map starter_lines (filter (survives tf sf) xs)))
  \/ (exists e, loop g tf sf ps acc = Err e
                /\ starter.loop g tf sf ps acc' = Err e).
Proof.
  revert acc acc'. induction ps as [| p ps IH]; intros acc acc'.
  - left. exists []. simpl. rewrite !app_nil_r. auto.
  - rewrite loop_cons, starter_loop_cons.
    destruct (resolve g p) as [x | e] eqn:Hp; cbn [bind]; [| right; eauto].
    destruct (IH (if survives tf sf x then acc ++ [project x] else acc)
                 (if survives tf sf x then acc' ++ starter_lines x else acc'))
      as [(xs & Hxs & H1 & H2) | (e & H1 & H2)]; [| right; eauto].
    left. exists (x :: xs). split; [now constructor |].
    rewrite H1, H2. cbn [filter].
    destruct (survives tf sf x); [| auto].
    cbn [map flat_map]. now rewrite <- !app_assoc.
Qed.

(** X12. On a ledger that answers the two list requests alike, the earlier
    provider and the final one keep the same proposals: either both succeed,
    one with a record and the other with four lines for each surviving
    item, in the same order, or both fail with the same error. *)
Theorem providers_agree (governance : Governance) (text : jsstring)
  (response : did.ListProposalInfoResponse) :
  list_proposals governance (request_of text) = Ok response ->
  list_proposals governance
    (starter.request (q_limit (parse_command text))
                     (q_statusFilter (parse_command text))) = Ok response ->
  (exists kept,
     get governance text = Ok (map project kept)
     /\ starter.get governance text = Ok (flat_map starter_lines kept))
  \/ (exists e, get governance text = Err e
                /\ starter.get governance text = Err e).
Proof.
  intros H1 H2. rewrite get_unfold, H1.
  unfold starter.get, starter.fetchProposals. cbv zeta. rewrite H2.
  cbn [bind].
  destruct (loops_agree governance (q_topicFilter (parse_command text))
              (q_statusFilter (parse_command text))
              (did.proposal_info response) [] [])
    as [(xs & _ & E1 & E2) | (e & E1 & E2)].
  - left. eexists. split; [exact E1 | exact E2].
  - right. eauto.
Qed.

Lemma providers_agree_witness :
  (exists kept,
     get sample sample_text = Ok (map project kept)
     /\ starter.get sample sample_text = Ok (flat_map starter_lines kept))
  \/ (exists e, get sample sample_text = Err e
                /\ starter.get sample sample_text = Err e).
Proof.
  apply (providers_agree sample sample_text
           {| did.proposal_info := sample_list |}); reflexivity.
Defined.

(** ** The test suites *)

Lemma toNumber_small_inv z n :
  toNumber z = Num n -> Z.abs n < 2 ^ 53 -> z = n.
Proof.
  unfold toNumber. intros H Hn.
  destruct (Z.ltb_spec (Z.abs z) (2 ^ 53)) as [Hz | Hz]; [congruence |].
  exfalso. cbv zeta in H.
  set (a := Z.abs z) in *.
  set (sh := Z.log2 a - 52) in *.
  assert (Ha : 0 < a) by lia.
  assert (Hlog : 53 <= Z.log2 a) by (apply Z.log2_le_pow2; lia).
  assert (Hsh : 1 <= sh) by (unfold sh; lia).
  assert (Hq : 2 ^ 52 <= Z.shiftr a sh).
  { rewrite Z.shiftr_div_pow2 by lia.
    apply Z.div_le_lower_bound; [apply Z.pow_pos_nonneg; lia |].
    rewrite Z.mul_comm, <- Z.pow_add_r by lia.
    replace (52 + sh) with (Z.log2 a) by (unfold sh; lia).
    apply Z.log2_spec. lia. }
  match type of H with
  | (if ?b then _ else _) = _ => destruct b; [discriminate |]
  end.
  injection H as H.
  match type of H with
  | context [Z.shiftl ?q sh] =>
      assert (Hq' : 2 ^ 52 <= q)
        by (match goal with
            | |- _ <= (if ?b then _ else _) => destruct b; lia
            end);
      set (q' := q) in *
  end.
  rewrite Z.shiftl_mul_pow2 in H by lia.
  assert (Hp : 2 <= 2 ^ sh).
  { change 2 with (2 ^ 1) at 1. apply Z.pow_le_mono_r; lia. }
  assert (Hm : 2 ^ 53 <= q' * 2 ^ sh).
  { change (2 ^ 53) with (2 ^ 52 * 2). apply Z.mul_le_mono_nonneg; lia. }
  set (m := q' * 2 ^ sh) in *.
  assert (Hsgn : Z.sgn z = 1 \/ Z.sgn z = -1) by (unfold a in Ha; lia).
  destruct Hsgn as [E | E]; rewrite E in H; lia.
Qed.

Lemma Z_toString_nonempty z : exists h t, Z_toString z = h :: t.
Proof.
  unfold Z_toString. destruct z as [| p | p]; cbn [Z.to_int].
  - simpl. eauto.
  - pose proof (Unsigned.to_uint_nonnil p) as H.
    destruct (Pos.to_uint p); simpl; eauto; congruence.
  - eauto.
Qed.

Lemma records_pass_topic g text out t :
  get g text = Ok out -> q_topicFilter (parse_command text) = Some t ->
  Forall (fun r => strict_equal
                     (VNum (parseInt (starter.ToString (Summary.topic r)) 10))
                     (VNum t) = true) out.
Proof.
  intros Hget Ht. apply Forall_forall. intros r Hr.
  destruct (get_record _ _ _ _ Hget Hr) as (_ & _ & x & _ & _ & _ & Hs & ->).
  rewrite Ht in Hs. unfold survives in Hs. apply andb_prop in Hs as [Hs _].
  cbn [project Summary.topic starter.ToString strict_equal].
  rewrite parseInt_Z_toString by auto. exact Hs.
Qed.

Lemma records_pass_status g text out s :
  get g text = Ok out -> q_statusFilter (parse_command text) = Some s ->
  Forall (fun r => strict_equal
                     (VNum (parseInt (starter.ToString (Summary.status r)) 10))
                     (VNum s) = true) out.
Proof.
  intros Hget Ht. apply Forall_forall. intros r Hr.
  destruct (get_record _ _ _ _ Hget Hr) as (_ & _ & x & _ & _ & _ & Hs & ->).
  rewrite Ht in Hs. unfold survives in Hs. apply andb_prop in Hs as [_ Hs].
  cbn [project Summary.status starter.ToString strict_equal].
  rewrite parseInt_Z_toString by auto. exact Hs.
Qed.

Lemma expect_code_passes field what code proposals :
  Forall (fun r => strict_equal
                     (VNum (parseInt (starter.ToString (field r)) 10)) code
                   = true) proposals ->
  nnsPlugin.expect_code field what code proposals = Passed.
Proof.
  induction 1 as [| r rs Hr H IH]; [reflexivity |].
  cbn [nnsPlugin.expect_code]. rewrite Hr. exact IH.
Qed.

(** X13. The two topic tests of the final plugin cannot fail on a topic:
    whatever the ledger answers, each passes when the query succeeds, and
    fails only with the error the query itself failed with. *)
Theorem topic_tests_pass (governance : Governance) :
  nnsPlugin.governance_provider_filters_by_topic_ProtocolCanisterManagement
    governance
  = match get governance (str "!proposals 50 topic 17") with
    | Ok _ => Passed
    | Err e => Failed (Raised e)
    end
  /\ nnsPlugin.governance_provider_filters_by_topic_IcOsVersionElection
       governance
     = match get governance (str "!proposals 20 topic 13 status 4") with
       | Ok _ => Passed
       | Err e => Failed (Raised e)
       end.
Proof.
  split.
  - unfold
      nnsPlugin.governance_provider_filters_by_topic_ProtocolCanisterManagement.
    change nnsPlugin.find_provider with (Some nnsPlugin.governanceProvider).
    cbv zeta. cbn [nnsPlugin.provider_get nnsPlugin.governanceProvider].
    replace (obj_get Topic (str "ProtocolCanisterManagement"))
      with (VNum (Num 17)) by (vm_compute; reflexivity).
    replace (str "!proposals 50 topic " ++ starter.ToString (VNum (Num 17)))
      with (str "!proposals 50 topic 17") by (vm_compute; reflexivity).
    destruct (get governance (str "!proposals 50 topic 17")) as [out | e] eqn:E;
      [| reflexivity].
    apply expect_code_passes.
    apply (records_pass_topic _ _ _ _ E). vm_compute. reflexivity.
  - unfold nnsPlugin.governance_provider_filters_by_topic_IcOsVersionElection.
    change nnsPlugin.find_provider with (Some nnsPlugin.governanceProvider).
    cbv zeta. cbn [nnsPlugin.provider_get nnsPlugin.governanceProvider].
    replace (obj_get Topic (str "IcOsVersionElection"))
      with (VNum (Num 13)) by (vm_compute; reflexivity).
    replace (obj_get ProposalStatus (str "Executed"))
      with (VNum (Num 4)) by (vm_compute; reflexivity).
    replace (str "!proposals 20 topic " ++ starter.ToString (VNum (Num 13))
               ++ str " status " ++ starter.ToString (VNum (Num 4)))
      with (str "!proposals 20 topic 13 status 4")
      by (vm_compute; reflexivity).
    destruct (get governance (str "!proposals 20 topic 13 status 4"))
      as [out | e] eqn:E; [| reflexivity].
    apply expect_code_passes.
    apply (records_pass_topic _ _ _ _ E). vm_compute. reflexivity.
Qed.

(** X14. The status test of the final plugin fails in two ways only: with
    the error of the query, or with [No proposals returned] when the query
    returns no record; it never finds a record with another status. *)
Theorem status_test_outcome (governance : Governance) :
  nnsPlugin.governance_provider_filters_by_status governance
  = match get governance (str "!proposals 10 status 1") with
    | Ok [] => Failed (Thrown (str "No proposals returned"))
    | Ok (_ :: _) => Passed
    | Err e => Failed (Raised e)
    end.
Proof.
  unfold nnsPlugin.governance_provider_filters_by_status.
  change nnsPlugin.find_provider with (Some nnsPlugin.governanceProvider).
  cbv zeta. cbn [nnsPlugin.provider_get nnsPlugin.governanceProvider].
  replace (obj_get ProposalStatus (str "Open"))
    with (VNum (Num 1)) by (vm_compute; reflexivity).
  replace (str "!proposals 10 status " ++ starter.ToString (VNum (Num 1)))
    with (str "!proposals 10 status 1") by (vm_compute; reflexivity).
  destruct (get governance (str "!proposals 10 status 1")) as [out | e] eqn:E;
    [| reflexivity].
  destruct out as [| r out]; [reflexivity |].
  cbn [List.length Nat.eqb].
  apply expect_code_passes.
  apply (records_pass_status _ _ _ _ E). vm_compute. reflexivity.
Qed.

(** X15. The test that looks for a topic, a status and a summary in the
    records of [!proposals 10] passes as soon as the query returns one
    record; it fails with [No proposals returned] on an empty result and
    with the error of the query otherwise, and never for a missing field. *)
Theorem fields_test_outcome (governance : Governance) :
  nnsPlugin.governance_proposals_include_topic_status_summary governance
  = match get governance (str "!proposals 10") with
    | Ok [] => Failed (Thrown (str "No proposals returned"))
    | Ok (_ :: _) => Passed
    | Err e => Failed (Raised e)
    end.
Proof.
  unfold nnsPlugin.governance_proposals_include_topic_status_summary.
  change nnsPlugin.find_provider with (Some nnsPlugin.governanceProvider).
  cbn [nnsPlugin.provider_get nnsPlugin.governanceProvider].
  destruct (get governance (str "!proposals 10")) as [out | e] eqn:E;
    [| reflexivity].
  destruct out as [| r out]; [reflexivity |].
  destruct (get_record _ _ _ r E) as (_ & _ & x & _ & _ & _ & _ & ->);
    [simpl; auto |].
  cbn [List.length Nat.eqb existsb project Summary.topic Summary.status
       Summary.summary is_string nonempty_string].
  destruct (Z_toString_nonempty (did.topic (r_detail x))) as (h & t & ->).
  destruct (Z_toString_nonempty (did.status (r_detail x))) as (h' & t' & ->).
  reflexivity.
Qed.

Lemma starter_get_ok g text out :
  starter.get g text = Ok out ->
  exists xs,
    out = flat_map starter_lines
            (filter (survives (q_topicFilter (parse_command text))
                              (q_statusFilter (parse_command text))) xs).
Proof.
  unfold starter.get, starter.fetchProposals. cbv zeta. intros H.
  destruct (list_proposals g _) as [response | e]; [| discriminate].
  cbn [bind] in H.
  destruct (loops_agree g (q_topicFilter (parse_command text))
              (q_statusFilter (parse_command text))
              (did.proposal_info response) [] [])
    as [(xs & _ & _ & E) | (e & _ & E)]; rewrite E in H; [| discriminate].
  injection H as <-. exists xs. reflexivity.
Qed.

Lemma filter_flat_map {A B} (f : B -> bool) (g : A -> list B) l :
  filter f (flat_map g l) = flat_map (fun x => filter f (g x)) l.
Proof.
  induction l as [| a l IH]; [reflexivity |].
  cbn [flat_map]. now rewrite filter_app, IH.
Qed.

Lemma topic_lines x :
  filter (fun item => startsWith item (str "Topic:")) (starter_lines x)
  = [str "Topic: " ++ Z_toString (did.topic (r_detail x))].
Proof. reflexivity. Qed.

Lemma status_lines x :
  filter (fun item => startsWith item (str "Status:")) (starter_lines x)
  = [str "Status: " ++ Z_toString (did.status (r_detail x))].
Proof. reflexivity. Qed.

Lemma passes_small z n :
  passes (Some (Num n)) z = true -> Z.abs n < 2 ^ 53 -> z = n.
Proof.
  cbn [passes]. intros H Hn. apply num_eqb_eq in H.
  now apply toNumber_small_inv.
Qed.

Lemma expect_lines_passes what code expected lines :
  Forall (fun l => l = expected) lines ->
  starterPlugin.expect_lines what code expected lines = Passed.
Proof.
  induction 1 as [| l ls Hl H IH]; [reflexivity |].
  cbn [starterPlugin.expect_lines]. subst l.
  now rewrite jsstring_eqb_refl.
Qed.

(** X16. The topic test of the earlier plugin cannot fail on a topic:
    whatever the ledger answers, every line of the result that starts with
    [Topic:] is [Topic: 13], so the test passes when the query succeeds and
    fails only with the error of the query. *)
Theorem starter_topic_test_passes (governance : Governance) :
  starterPlugin.governance_provider_filters_by_topic governance
  = match starter.get governance (str "!proposals 50 topic 13") with
    | Ok _ => Passed
    | Err e => Failed (Raised e)
    end.
Proof.
  unfold starterPlugin.governance_provider_filters_by_topic.
  change starterPlugin.find_provider
    with (Some starterPlugin.governanceProvider).
  cbv zeta.
  cbn [starterPlugin.provider_get starterPlugin.governanceProvider].
  replace (obj_get Topic (str "IcOsVersionElection"))
    with (VNum (Num 13)) by (vm_compute; reflexivity).
  replace (str "!proposals 50 topic " ++ starter.ToString (VNum (Num 13)))
    with (str "!proposals 50 topic 13") by (vm_compute; reflexivity).
  destruct (starter.get governance (str "!proposals 50 topic 13"))
    as [out | e] eqn:E; [| reflexivity].
  apply starter_get_ok in E as (xs & ->).
  replace (parse_command (str "!proposals 50 topic 13"))
    with {| q_limit := Num 50; q_topicFilter := Some (Num 13);
            q_statusFilter := None |} by (vm_compute; reflexivity).
  cbn [q_topicFilter q_statusFilter].
  apply expect_lines_passes. rewrite filter_flat_map.
  apply Forall_forall. intros l Hl.
  apply in_flat_map in Hl as (x & Hx & Hl).
  rewrite topic_lines in Hl. destruct Hl as [<- | []].
  apply filter_In in Hx as [_ Hx]. unfold survives in Hx.
  apply andb_prop in Hx as [Hx _].
  apply passes_small in Hx; [| simpl; lia].
  rewrite Hx. reflexivity.
Qed.

(** X17. The status test of the earlier plugin fails in two ways only: with
    the error of the query, or with [No Status entries found] when the
    query returns nothing; every line that starts with [Status:] is
    [Status: 4]. *)
Theorem starter_status_test_outcome (governance : Governance) :
  starterPlugin.governance_provider_filters_by_status governance
  = match starter.get governance (str "!proposals 5 status 4") with
    | Ok [] => Failed (Thrown (str "No Status entries found"))
    | Ok (_ :: _) => Passed
    | Err e => Failed (Raised e)
    end.
Proof.
  unfold starterPlugin.governance_provider_filters_by_status.
  change starterPlugin.find_provider
    with (Some starterPlugin.governanceProvider).
  cbv zeta.
  cbn [starterPlugin.provider_get starterPlugin.governanceProvider].
  replace (str "!proposals 5 status " ++ starter.ToString (VNum (Num 4)))
    with (str "!proposals 5 status 4") by (vm_compute; reflexivity).
  destruct (starter.get governance (str "!proposals 5 status 4"))
    as [out | e] eqn:E; [| reflexivity].
  apply starter_get_ok in E as (xs & ->).
  replace (parse_command (str "!proposals 5 status 4"))
    with {| q_limit := Num 5; q_topicFilter := None;
            q_statusFilter := Some (Num 4) |} by (vm_compute; reflexivity).
  cbn [q_topicFilter q_statusFilter].
  rewrite filter_flat_map.
  destruct (filter (survives None (Some (Num 4))) xs) as [| x kept] eqn:K;
    [reflexivity |].
  cbn [flat_map]. rewrite status_lines.
  cbn [List.app List.length Nat.eqb].
  change (starter_lines x ++ flat_map starter_lines kept)
    with ((str "#" ++ Z_toString (r_id x) ++ str " "
             ++ starter.ToString (opt_text (did.title (r_proposal x))))
          :: tl (starter_lines x) ++ flat_map starter_lines kept).
  cbv iota.
  apply expect_lines_passes.
  change ((str "Status: " ++ Z_toString (did.status (r_detail x)))
          :: flat_map (fun x0 => filter (fun item => startsWith item (str "Status:"))
                                   (starter_lines x0)) kept)
    with (flat_map (fun x0 => filter (fun item => startsWith item (str "Status:"))
                                (starter_lines x0)) (x :: kept)).
  rewrite <- K.
  apply Forall_forall. intros l Hl.
  apply in_flat_map in Hl as (y & Hy & Hl).
  rewrite status_lines in Hl. destruct Hl as [<- | []].
  apply filter_In in Hy as [_ Hy]. unfold survives in Hy.
  apply andb_prop in Hy as [_ Hy].
  apply passes_small in Hy; [| simpl; lia].
  rewrite Hy. reflexivity.
Qed.

(** X18. The test of the earlier plugin that looks for a [Topic:], a
    [Status:] and a [Summary:] line in the result of [!proposals 10] passes
    as soon as one proposal is returned; on an empty result it fails with
    [Missing Topic in content], and otherwise only with the error of the
    query. *)
Theorem starter_content_test_outcome (governance : Governance) :
  starterPlugin.governance_content_includes_topic_status_summary governance
  = match starter.get governance (str "!proposals 10") with
    | Ok [] => Failed (Thrown (str "Missing Topic in content"))
    | Ok (_ :: _) => Passed
    | Err e => Failed (Raised e)
    end.
Proof.
  unfold starterPlugin.governance_content_includes_topic_status_summary.
  change starterPlugin.find_provider
    with (Some starterPlugin.governanceProvider).
  cbn [starterPlugin.provider_get starterPlugin.governanceProvider].
  destruct (starter.get governance (str "!proposals 10")) as [out | e] eqn:E;
    [| reflexivity].
  apply starter_get_ok in E as (xs & ->).
  destruct (filter _ xs) as [| x kept]; reflexivity.
Qed.
